(** * tfa-app: the Tabroom qualification-points scraper

    A shallow embedding of [tfa_scraper.py] (and of the one place of
    [app.py] that consumes its output), with the properties of the
    extraction and pagination logic proved over it.

    Conventions of the embedding.
    - Python [str] is [string]; characters are bytes, so the character
      classes below are the ASCII ones.
    - Python [int] is [Z].
    - A Python [float] obtained from a decimal token is represented by the
      exact rational [Q] the token denotes; rounding to a double is not
      modelled.
    - A parsed document (a BeautifulSoup tree) is a [node]; an element
      reference is the element's position in document order.
    - The network is a function from the number of requests already made
      and the URL to a [response]; every request is appended to a log.
    - [print] and [time.sleep] have no effect on the values computed and
      are left out. *)

From Stdlib Require Import String Ascii List ZArith QArith Lia Bool Sorted.
Import ListNotations.

Local Open Scope string_scope.
Local Open Scope list_scope.
Local Open Scope Z_scope.

(* ================================================================= *)
(** ** Text primitives (Python [str] methods used by the scraper) *)

Module Str.

Definition is_digit (c : ascii) : bool :=
  match c with
  | "0" | "1" | "2" | "3" | "4" | "5" | "6" | "7" | "8" | "9" => true
  | _ => false
  end%char.

Definition is_sign (c : ascii) : bool :=
  match c with "-" | "+" => true | _ => false end%char.

Definition is_dot (c : ascii) : bool :=
  match c with "." => true | _ => false end%char.

(** [str.isspace] on the ASCII range: TAB..CR, FS..US and the space. *)
Definition is_space (c : ascii) : bool :=
  let n := N_of_ascii c in
  ((9 <=? n) && (n <=? 13) || (28 <=? n) && (n <=? 32))%N.

Definition digit_val (c : ascii) : Z := Z.of_N (N_of_ascii c) - 48.

Fixpoint str_all (p : ascii -> bool) (s : string) : bool :=
  match s with
  | EmptyString => true
  | String c s' => p c && str_all p s'
  end.


Fixpoint str_filter (p : ascii -> bool) (s : string) : string :=
  match s with
  | EmptyString => EmptyString
  | String c s' => if p c then String c (str_filter p s') else str_filter p s'
  end.

Fixpoint str_map (f : ascii -> ascii) (s : string) : string :=
  match s with
  | EmptyString => EmptyString
  | String c s' => String (f c) (str_map f s')
  end.

Definition is_empty (s : string) : bool :=
  match s with EmptyString => true | _ => false end.

(** [s.replace(",", "")] *)
Definition remove_commas (s : string) : string :=
  str_filter (fun c => negb (Ascii.eqb c ","%char)) s.

(** [s.lower()] on the ASCII range. *)
Definition lower_char (c : ascii) : ascii :=
  let n := N_of_ascii c in
  if ((65 <=? n) && (n <=? 90))%N then ascii_of_N (n + 32) else c.

Definition lower (s : string) : string := str_map lower_char s.

(** [s.lstrip()], [s.rstrip()], [s.strip()] *)
Fixpoint lstrip (s : string) : string :=
  match s with
  | String c s' => if is_space c then lstrip s' else s
  | EmptyString => EmptyString
  end.

Fixpoint rstrip (s : string) : string :=
  match s with
  | EmptyString => EmptyString
  | String c s' =>
      match rstrip s' with
      | EmptyString => if is_space c then EmptyString else String c EmptyString
      | r => String c r
      end
  end.

Definition strip (s : string) : string := rstrip (lstrip s).

(** [s.split(sep)[0]]: the text before the first occurrence of [sep]. *)
Fixpoint split_first (sep : ascii) (s : string) : string :=
  match s with
  | EmptyString => EmptyString
  | String c s' => if Ascii.eqb c sep then EmptyString else String c (split_first sep s')
  end.

(** [sub in s] *)
Fixpoint contains (sub s : string) : bool :=
  String.prefix sub s ||
  match s with
  | EmptyString => false
  | String _ s' => contains sub s'
  end.

(** [sep.join(parts)] *)
Fixpoint join (sep : string) (parts : list string) : string :=
  match parts with
  | [] => EmptyString
  | [p] => p
  | p :: rest => p ++ sep ++ join sep rest
  end%string.

(** The longest prefix of [s] made of [p]-characters, and what follows. *)
Fixpoint span (p : ascii -> bool) (s : string) : string * string :=
  match s with
  | String c s' =>
      if p c then let '(a, b) := span p s' in (String c a, b) else (EmptyString, s)
  | EmptyString => (EmptyString, EmptyString)
  end.


(** Value of a string of decimal digits, most significant first. *)
Fixpoint digits_val_from (acc : Z) (s : string) : Z :=
  match s with
  | EmptyString => acc
  | String c s' => digits_val_from (acc * 10 + digit_val c) s'
  end.

Definition digits_val (s : string) : Z := digits_val_from 0 s.

(** [str(n)] for a Python [int]. *)
Fixpoint pos_digits (fuel : nat) (n : Z) (acc : string) : string :=
  match fuel with
  | O => acc
  | S f =>
      let acc' := String (ascii_of_N (Z.to_N (48 + n mod 10))) acc in
      if n <? 10 then acc' else pos_digits f (n / 10) acc'
  end.

Definition str_of_int (n : Z) : string :=
  if n <? 0 then String "-"%char (pos_digits (S (Z.to_nat (Z.log2 (- n)))) (- n) EmptyString)
  else pos_digits (S (Z.to_nat (Z.log2 n))) n EmptyString.

End Str.

(* ================================================================= *)
(** ** Backtracking regular-expression matching ([re.search])

    The two patterns of the scraper are built from character classes
    under the greedy quantifiers [?], [*], [+] and from a literal.  Each
    combinator takes the continuation that matches the rest of the
    pattern and tries its alternatives in the order of Python's engine:
    the longest repetition first, shorter ones on failure of the
    continuation.  A successful match returns the text matched from the
    current position on, and the unread rest of the subject. *)

Module Re.

Definition matcher := string -> option (string * string).

Definition consume (c : ascii) (r : option (string * string)) :=
  match r with
  | Some (m, rest) => Some (String c m, rest)
  | None => None
  end.

Definition or_else {A} (a b : option A) : option A :=
  match a with Some _ => a | None => b end.

Definition accept : matcher := fun s => Some (EmptyString, s).

(** [p?] *)
Definition opt (p : ascii -> bool) (k : matcher) : matcher := fun s =>
  match s with
  | String c s' => if p c then or_else (consume c (k s')) (k s) else k s
  | EmptyString => k s
  end.

(** [p*] *)
Fixpoint star (p : ascii -> bool) (k : matcher) (s : string) : option (string * string) :=
  match s with
  | String c s' => if p c then or_else (consume c (star p k s')) (k s) else k s
  | EmptyString => k s
  end.

(** [p+] *)
Definition plus (p : ascii -> bool) (k : matcher) : matcher := fun s =>
  match s with
  | String c s' => if p c then consume c (star p k s') else None
  | EmptyString => None
  end.

(** a literal string *)
Fixpoint lit (l : string) (k : matcher) (s : string) : option (string * string) :=
  match l with
  | EmptyString => k s
  | String a l' =>
      match s with
      | String c s' => if Ascii.eqb a c then consume c (lit l' k s') else None
      | EmptyString => None
      end
  end.

(** [re.search(pattern, s)]: the match at the leftmost position where
    the pattern matches; the result is [m.group(0)]. *)
Fixpoint search (m : matcher) (s : string) : option string :=
  match m s with
  | Some (g, _) => Some g
  | None =>
      match s with
      | String _ s' => search m s'
      | EmptyString => None
      end
  end.

End Re.

(* ================================================================= *)
(** ** Parsed documents (the part of BeautifulSoup the scraper uses) *)

Module Dom.

#[local] Set Warnings "-register-all".

Inductive node : Type :=
| Text (s : string)
| Elem (tag : string) (attrs : list (string * string)) (kids : list node).

(** Every node below [n], in document order (pre-order), [n] excluded. *)
Fixpoint descendants (n : node) : list node :=
  match n with
  | Text _ => []
  | Elem _ _ kids => flat_map (fun k => k :: descendants k) kids
  end.

Definition is_tag (tags : list string) (n : node) : bool :=
  match n with
  | Elem t _ _ => existsb (String.eqb t) tags
  | Text _ => false
  end.

(** [n.find_all(tags)] and [n.find(tags)] *)
Definition find_all (tags : list string) (n : node) : list node :=
  filter (is_tag tags) (descendants n).

Definition find (tags : list string) (n : node) : option node :=
  hd_error (find_all tags n).

(** [n.get(name)]: the value of an attribute. *)
Fixpoint get_attr (name : string) (attrs : list (string * string)) : option string :=
  match attrs with
  | [] => None
  | (k, v) :: rest => if String.eqb k name then Some v else get_attr name rest
  end.

Definition attr (name : string) (n : node) : option string :=
  match n with
  | Elem _ a _ => get_attr name a
  | Text _ => None
  end.

(** [n.string]: the single string below [n], if [n] has exactly one child
    at every level down to a string. *)
Fixpoint node_string (n : node) : option string :=
  match n with
  | Text s => Some s
  | Elem _ _ [k] => node_string k
  | Elem _ _ _ => None
  end.

(** The strings below [n] in document order.  Comments and the contents
    of [script] and [style] elements, which [get_text] leaves out, are
    not part of the model. *)
Definition all_strings (n : node) : list string :=
  flat_map (fun d => match d with Text s => [s] | Elem _ _ _ => [] end)
           (descendants n).

(** [n.get_text(sep, strip=strip)]: with [strip], every string is stripped
    and the empty ones are dropped before joining. *)
Definition get_text (sep : string) (strip : bool) (n : node) : string :=
  let strs := all_strings n in
  let strs := if strip
              then filter (fun s => negb (Str.is_empty s)) (map Str.strip strs)
              else strs in
  Str.join sep strs.

(** Position of the first element of [l] satisfying [p]. *)
Fixpoint find_index {A} (p : A -> bool) (l : list A) : option nat :=
  match l with
  | [] => None
  | x :: rest => if p x then Some O else option_map S (find_index p rest)
  end.

(** Position of the first element satisfying [p] strictly after position [i]. *)
Definition find_index_after {A} (i : nat) (p : A -> bool) (l : list A) : option nat :=
  option_map (fun j => (S i + j)%nat) (find_index p (skipn (S i) l)).

End Dom.

Import Dom.

(* ================================================================= *)
(** ** Records *)

(** A Python value stored in a result row. *)
Inductive value : Type :=
| VFloat (q : Q)
| VStr (s : string).

(** A result row is a [dict] with string keys, in insertion order. *)
Definition dict := list (string * value).

Fixpoint dict_get (k : string) (d : dict) : option value :=
  match d with
  | [] => None
  | (k', v) :: rest => if String.eqb k' k then Some v else dict_get k rest
  end.

Definition dict_keys (d : dict) : list string := map fst d.

(* ================================================================= *)
(** ** [tfa_scraper.py]: the pure part *)

Definition BASE : string := "https://www.tabroom.com".

(** The pattern [[-+]?\d*\.?\d+], and its tail [\.?\d+]. *)
Definition frac_pattern : Re.matcher :=
  Re.opt Str.is_dot (Re.plus Str.is_digit Re.accept).

Definition points_pattern : Re.matcher :=
  Re.opt Str.is_sign (Re.star Str.is_digit frac_pattern).

(** The pattern [result_id=(\d+)]. *)
Definition result_id_pattern : Re.matcher :=
  Re.lit "result_id=" (Re.plus Str.is_digit Re.accept).

(** The rational denoted by sign, integer digits and fraction digits. *)
Definition decimal (neg : bool) (ds fs : string) : Q :=
  let scale := 10 ^ Z.of_nat (String.length fs) in
  let mag := Str.digits_val ds * scale + Str.digits_val fs in
  Qmake (if neg then - mag else mag) (Z.to_pos scale).

(** [float(tok)] on plain decimal literals [[sign] digits [. [digits]]]
    and [[sign] . digits]; [None] stands for [ValueError].  Exponents,
    [inf], [nan] and surrounding white space cannot occur in a token of
    [points_pattern] and are not covered. *)
Definition float_unsigned (neg : bool) (body : string) : option Q :=
  let '(ds, r1) := Str.span Str.is_digit body in
  match r1 with
  | EmptyString => if Str.is_empty ds then None else Some (decimal neg ds EmptyString)
  | String c r2 =>
      if Str.is_dot c then
        let '(fs, r3) := Str.span Str.is_digit r2 in
        match r3 with
        | EmptyString =>
            if Str.is_empty ds && Str.is_empty fs then None else Some (decimal neg ds fs)
        | String _ _ => None
        end
      else None
  end.

Definition float_of_token (tok : string) : option Q :=
  match tok with
  | String c r =>
      if Ascii.eqb c "-"%char then float_unsigned true r
      else if Ascii.eqb c "+"%char then float_unsigned false r
      else float_unsigned false tok
  | EmptyString => None
  end.

(** Lines 67-74 of [parse_tfa_rows]: the points of a first cell's text;
    [None] is the [continue] of both the missing match and the handler. *)
Definition extract_points (pts_str : string) : option Q :=
  match Re.search points_pattern (Str.remove_commas pts_str) with
  | None => None
  | Some tok => float_of_token tok
  end.

Definition cell_text (n : node) : string := get_text " " true n.

Definition heading_marker (x : option string) : bool :=
  match x with
  | Some s => negb (Str.is_empty s) && (Str.contains "TFA" s || Str.contains "Qualification" s)
  | None => false
  end.

Definition is_marked_heading (n : node) : bool :=
  is_tag ["h3"; "h4"] n && heading_marker (node_string n).

(** The test of the fallback scan on one table. *)
Definition header_matches (tbl : node) : bool :=
  match find ["tr"] tbl with
  | None => false
  | Some header_cells =>
      let texts := map (fun c => Str.lower (cell_text c)) (find_all ["th"; "td"] header_cells) in
      let header_str := Str.join " " texts in
      Str.contains "point" header_str
        && (Str.contains "place" header_str || Str.contains "placed" header_str)
      || (3 <=? length texts)%nat
        && (Str.contains "point" header_str || Str.contains "tfa" header_str)
  end.

Fixpoint fallback_scan (i : nat) (l : list node) : option nat :=
  match l with
  | [] => None
  | n :: rest =>
      if is_tag ["table"] n && header_matches n then Some i
      else fallback_scan (S i) rest
  end.

(** [find_tfa_table], returning the position of the table in document order. *)
Definition find_tfa_table_pos (soup : node) : option nat :=
  let doc := descendants soup in
  let fallback := fallback_scan O doc in
  match find_index is_marked_heading doc with
  | Some h =>
      match find_index_after h (is_tag ["table"]) doc with
      | Some t => Some t
      | None => fallback
      end
  | None => fallback
  end.

Definition find_tfa_table (soup : node) : option node :=
  match find_tfa_table_pos soup with
  | Some t => nth_error (descendants soup) t
  | None => None
  end.

Definition text_at (tds : list node) (i : nat) : string :=
  match nth_error tds i with
  | Some td => cell_text td
  | None => EmptyString
  end.

(** The body of the loop of [parse_tfa_rows] on one row: the record
    appended to [out], or [None] when the row is skipped. *)
Definition row_record (tr : node) (event_name : string) : option dict :=
  let tds := find_all ["td"] tr in
  if (length tds <? 4)%nat then None
  else
    match extract_points (text_at tds 0) with
    | None => None
    | Some points =>
        let entry := if (3 <=? length tds)%nat then text_at tds 2 else EmptyString in
        let school := if (4 <=? length tds)%nat then text_at tds 3 else EmptyString in
        let qualifying_event := if (5 <=? length tds)%nat then text_at tds 4 else EmptyString in
        Some [ ("points", VFloat points);
               ("entry", VStr entry);
               ("school", VStr school);
               ("qualifying_event", VStr qualifying_event);
               ("event", VStr event_name) ]
    end.

(** The [for] loop of [parse_tfa_rows], threading [out]. *)
Fixpoint parse_rows_loop (rows : list node) (event_name : string) (out : list dict) : list dict :=
  match rows with
  | [] => out
  | tr :: rest =>
      match row_record tr event_name with
      | Some r => parse_rows_loop rest event_name (out ++ [r])
      | None => parse_rows_loop rest event_name out
      end
  end.

Definition parse_tfa_rows (table : node) (event_name : string) : list dict :=
  let rows := find_all ["tr"] table in
  match rows with
  | [] => []
  | r0 :: _ =>
      let start_idx :=
        match find_all ["th"; "td"] r0 with [] => 0%nat | _ :: _ => 1%nat end in
      parse_rows_loop (skipn start_idx rows) event_name []
  end.

Definition get_event_name (soup : node) : string :=
  let from_title :=
    match find ["title"] soup with
    | Some title =>
        let text := get_text "" false title in
        if Str.is_empty text then "Unknown Event"
        else Str.strip (Str.split_first "|"%char text)
    | None => "Unknown Event"
    end in
  match find ["h2"] soup with
  | Some h2 =>
      let name := get_text " " true h2 in
      if Str.is_empty name then from_title else name
  | None => from_title
  end.

(* ================================================================= *)
(** ** Effects: requests, exceptions and the loop budget *)

(** What one [SESSION.get(url, timeout=30)] meets. *)
Inductive response : Type :=
| TimedOut                            (* requests.Timeout *)
| ConnectFailed                       (* requests.ConnectionError *)
| Reply (status : Z) (body : node).   (* a response, its body parsed *)

(** The exceptions of [requests] that can leave [get_soup]. *)
Inductive exn : Type := HTTPError | Timeout | ConnectionError.

(** Outcome of a computation: a value, an exception that propagates, or
    a [while] loop that used up the steps it was given. *)
Inductive res (A : Type) : Type :=
| Val (a : A)
| Raise (e : exn)
| OutOfFuel.

Arguments Val {A} a.
Arguments Raise {A} e.
Arguments OutOfFuel {A}.

(** The state is the log of the URLs requested so far. *)
Definition M (A : Type) : Type := list string -> res A * list string.

Definition ret {A} (a : A) : M A := fun log => (Val a, log).

Definition raise {A} (e : exn) : M A := fun log => (Raise e, log).

Definition bind {A B} (m : M A) (k : A -> M B) : M B := fun log =>
  match m log with
  | (Val a, log') => k a log'
  | (Raise e, log') => (Raise e, log')
  | (OutOfFuel, log') => (OutOfFuel, log')
  end.

(** [try: m except requests.HTTPError: h] *)
Definition try_except_HTTPError {A} (m : M A) (h : M A) : M A := fun log =>
  match m log with
  | (Raise HTTPError, log') => h log'
  | r => r
  end.

Notation "x <- m ;; k" := (bind m (fun x => k))
  (at level 61, m at next level, right associativity).

Section Scraper.

(** The remote site: the answer to the request number [n] for [url]. *)
Variable net : nat -> string -> response.

(** [SESSION.get(url, timeout=30)]: the status and the parsed body. *)
Definition session_get (url : string) : M (Z * node) := fun log =>
  match net (length log) url with
  | TimedOut => (Raise Timeout, log ++ [url])
  | ConnectFailed => (Raise ConnectionError, log ++ [url])
  | Reply status body => (Val (status, body), log ++ [url])
  end.

(** [r.raise_for_status()] *)
Definition raise_for_status (status : Z) : M unit :=
  if (400 <=? status) && (status <? 600) then raise HTTPError else ret tt.

Definition get_soup (url : string) : M node :=
  r <- session_get url ;;
  _ <- raise_for_status (fst r) ;;
  ret (snd r).

Definition index_url (tourn_id : string) : string :=
  (BASE ++ "/index/tourn/results/index.mhtml?tourn_id=" ++ tourn_id)%string.

Definition result_url (tourn_id : string) (result_id : Z) : string :=
  (BASE ++ "/index/tourn/results/event_results.mhtml?tourn_id=" ++ tourn_id
        ++ "&result_id=" ++ Str.str_of_int result_id)%string.

(** [soup.select("a[href*='event_results.mhtml']")] *)
Definition select_result_links (soup : node) : list node :=
  filter (fun n =>
            is_tag ["a"] n &&
            match attr "href" n with
            | Some h => Str.contains "event_results.mhtml" h
            | None => false
            end)
         (descendants soup).

(** [ids.add(x)] on a set kept as a duplicate-free list. *)
Definition set_add (x : Z) (ids : list Z) : list Z :=
  if existsb (Z.eqb x) ids then ids else ids ++ [x].

(** [sorted(ids)] *)
Fixpoint insert_sorted (x : Z) (l : list Z) : list Z :=
  match l with
  | [] => [x]
  | y :: rest => if x <=? y then x :: l else y :: insert_sorted x rest
  end.

Definition sorted (l : list Z) : list Z := fold_right insert_sorted [] l.

(** One turn of the loop over the links of the index page. *)
Definition add_link_id (ids : list Z) (a : node) : list Z :=
  let href := match attr "href" a with Some h => h | None => EmptyString end in
  match Re.search result_id_pattern href with
  | Some g => set_add (Str.digits_val (String.substring 10 (String.length g - 10) g)) ids
  | None => ids
  end.

Definition extract_result_ids_from_index (tourn_id : string) : M (list Z) :=
  soup <- get_soup (index_url tourn_id) ;;
  ret (sorted (fold_left add_link_id (select_result_links soup) [])).

Definition page_has_tfa_points (tourn_id : string) (result_id : Z)
  : M (list dict * string) :=
  try_except_HTTPError
    (soup <- get_soup (result_url tourn_id result_id) ;;
     let event_name := get_event_name soup in
     match find_tfa_table soup with
     | None => ret ([], event_name)
     | Some tbl => ret (parse_tfa_rows tbl event_name, event_name)
     end)
    (ret ([], "Unknown Event")).

(** The loop of [find_true_starting_result_id] over [sorted(candidates)]. *)
Fixpoint seek_loop (tourn_id : string) (rids : list Z) : M (option Z) :=
  match rids with
  | [] => ret None
  | rid :: rest =>
      p <- page_has_tfa_points tourn_id rid ;;
      match fst p with
      | _ :: _ => ret (Some rid)
      | [] => seek_loop tourn_id rest
      end
  end.

Definition find_true_starting_result_id (tourn_id : string) (candidates : list Z)
  : M (option Z) :=
  seek_loop tourn_id (sorted candidates).

(** [min(candidates)] of a non-empty list. *)
Definition list_min (l : list Z) : Z :=
  match l with
  | [] => 0
  | x :: rest => fold_left Z.min rest x
  end.

(** The variables of the scanning loop. *)
Record ScanState : Type := mkScan {
  rid : Z;
  empty_streak : Z;
  all_rows : list dict
}.

(** One turn of the scanning loop, after the probe returned [rows]. *)
Definition scan_next (st : ScanState) (rows : list dict) : ScanState :=
  match rows with
  | _ :: _ => mkScan (rid st + 1) 0 (all_rows st ++ rows)
  | [] => mkScan (rid st + 1) (empty_streak st + 1) (all_rows st)
  end.

(** The [while empty_streak < empty_streak_limit] loop, run for at most
    [fuel] turns. *)
Fixpoint scan_loop (fuel : nat) (tourn_id : string) (empty_streak_limit : Z)
         (st : ScanState) : M ScanState :=
  if empty_streak st <? empty_streak_limit then
    match fuel with
    | O => fun log => (OutOfFuel, log)
    | S fuel' =>
        p <- page_has_tfa_points tourn_id (rid st) ;;
        scan_loop fuel' tourn_id empty_streak_limit (scan_next st (fst p))
    end
  else ret st.

Definition scrape_tfa_tournament (fuel : nat) (tourn_id : string)
           (empty_streak_limit : Z) : M (list dict) :=
  candidates <- extract_result_ids_from_index tourn_id ;;
  match candidates with
  | [] => ret []
  | _ :: _ =>
      found <- find_true_starting_result_id tourn_id candidates ;;
      let start_id :=
        match found with
        | Some r => r
        | None => list_min candidates
        end in
      st <- scan_loop fuel tourn_id empty_streak_limit (mkScan start_id 0 []) ;;
      ret (all_rows st)
  end.

End Scraper.

(* ================================================================= *)
(** ** [app.py]: what the admin panel does with the scraped rows *)

Module App.

(** Columns of [pd.DataFrame(rows)]: the keys of the rows, in order of
    first appearance. *)
Definition add_columns (cols : list string) (d : dict) : list string :=
  fold_left (fun cs k => if existsb (String.eqb k) cs then cs else cs ++ [k])
            (dict_keys d) cols.

Definition columns (rows : list dict) : list string :=
  fold_left add_columns rows [].

(** [pd.DataFrame(rows)[cols]]: [None] stands for the [KeyError] raised
    when a requested column is not a column of the frame; a row without
    a value in a column holds [None] (NaN) there. *)
Definition select_columns (cols : list string) (rows : list dict)
  : option (list (list (option value))) :=
  if forallb (fun c => existsb (String.eqb c) (columns rows)) cols
  then Some (map (fun d => map (fun c => dict_get c d) cols) rows)
  else None.

Definition sheet_columns : list string :=
  ["entry"; "school"; "qualifying_event"; "event"; "points"; "tournament"].

(** Line 130: [new_df = pd.DataFrame(scraped)[[...]]]. *)
Definition new_df (scraped : list dict) := select_columns sheet_columns scraped.

End App.

(* ================================================================= *)
(** ** Vocabulary of the statements *)




(** What [page_has_tfa_points] makes of the answer to its request. *)
Definition page_result (r : response) : res (list dict * string) :=
  match r with
  | TimedOut => Raise Timeout
  | ConnectFailed => Raise ConnectionError
  | Reply status soup =>
      if (400 <=? status) && (status <? 600) then Val ([], "Unknown Event")
      else
        let event_name := get_event_name soup in
        match find_tfa_table soup with
        | None => Val ([], event_name)
        | Some tbl => Val (parse_tfa_rows tbl event_name, event_name)
        end
  end.

(** The rows a probe contributes: those of its value, none otherwise. *)
Definition rows_of (r : res (list dict * string)) : list dict :=
  match r with
  | Val p => fst p
  | _ => []
  end.

(** The identifiers [r], [r+1], ... ([n] of them). *)
Fixpoint ids_from (r : Z) (n : nat) : list Z :=
  match n with
  | O => []
  | S n' => r :: ids_from (r + 1) n'
  end.

(** The rows contributed by [n] successive probes, the first one being
    request number [c] and asking for identifier [r]. *)
Fixpoint scan_rows (net : nat -> string -> response) (tourn_id : string)
         (c : nat) (r : Z) (n : nat) : list dict :=
  match n with
  | O => []
  | S n' =>
      rows_of (page_result (net c (result_url tourn_id r)))
      ++ scan_rows net tourn_id (S c) (r + 1) n'
  end.

(** The rows of a table without the decision about its first row. *)
Definition rows_records (rows : list node) (event_name : string) : list dict :=
  flat_map (fun tr => match row_record tr event_name with
                      | Some r => [r]
                      | None => []
                      end) rows.

(** The keys of the rows built by [parse_tfa_rows]. *)
Definition scraper_keys : list string :=
  ["points"; "entry"; "school"; "qualifying_event"; "event"].

(* ================================================================= *)
(** ** Sample pages and sites *)

Module Demo.

Definition td (s : string) : node := Elem "td" [] [Text s].
Definition th (s : string) : node := Elem "th" [] [Text s].
Definition tr (cells : list node) : node := Elem "tr" [] cells.

Definition header_row : node :=
  tr [th "Points"; th "Place"; th "Entry"; th "School"; th "Event"].

Definition data_row (pts place entry school ev : string) : node :=
  tr [td pts; td place; td entry; td school; td ev].

Definition document (title : string) (body : list node) : node :=
  Elem "[document]" []
       [Elem "html" []
             [Elem "head" [] [Elem "title" [] [Text title]];
              Elem "body" [] body]].

(** A result page with a qualification table under a marked heading. *)
Definition result_page (event : string) (rows : list node) : node :=
  document "Results | Tabroom"
           [Elem "h2" [] [Text event];
            Elem "h4" [] [Text "TFA Qualification Points"];
            Elem "table" [] (header_row :: rows)].

(** A result page without any table. *)
Definition plain_page : node :=
  document "Results | Tabroom" [Elem "h2" [] [Text "Prelims"]].

Definition link (rid : string) : node :=
  Elem "a"
       [("href", ("/index/tourn/results/event_results.mhtml?tourn_id=36095&result_id=" ++ rid)%string)]
       [Text "Results"].

Definition index_page (links : list node) : node :=
  document "Results | Tabroom" [Elem "div" [] links].

Definition page5 : node := result_page "Lincoln Douglas" [data_row "10" "1" "Ada Park" "Central HS" "LD"].
Definition page6 : node :=
  result_page "Policy" [data_row "8" "1" "Lee & Cho" "North HS" "CX";
                        data_row "6" "2" "Diaz & Roy" "Central HS" "CX"].
Definition page9 : node := result_page "Extemp" [data_row "1,2" "1" "Sam Tan" "West HS" "IX"].

(** A site with tables at the result pages 5, 6 and 9 and plain pages
    everywhere else; the index links to 5, 6 and 9. *)
Definition net (n : nat) (url : string) : response :=
  if String.eqb url (index_url "36095") then Reply 200 (index_page [link "9"; link "5"; link "6"; link "5"])
  else if String.eqb url (result_url "36095" 5) then Reply 200 page5
  else if String.eqb url (result_url "36095" 6) then Reply 200 page6
  else if String.eqb url (result_url "36095" 9) then Reply 200 page9
  else Reply 200 plain_page.

(** The same site, where page 7 answers 404. *)
Definition net_404 (n : nat) (url : string) : response :=
  if String.eqb url (result_url "36095" 7) then Reply 404 plain_page else net n url.

(** The same site, where the request for page 7 times out. *)
Definition net_timeout (n : nat) (url : string) : response :=
  if String.eqb url (result_url "36095" 7) then TimedOut else net n url.

(** The same site, where page 7 cannot be connected to. *)
Definition net_refused (n : nat) (url : string) : response :=
  if String.eqb url (result_url "36095" 7) then ConnectFailed else net n url.

(** A site whose index page has no link to a result page. *)
Definition net_no_links (n : nat) (url : string) : response :=
  if String.eqb url (index_url "36095") then Reply 200 (index_page [])
  else net n url.

(** The same site, where the index links to page 3 only: seeking finds
    no rows and the scan starts from 3. *)
Definition net_low_index (n : nat) (url : string) : response :=
  if String.eqb url (index_url "36095") then Reply 200 (index_page [link "3"])
  else net n url.

(** What the pipeline returns on [net], and the requests it makes. *)
Definition scraped : list dict :=
  rows_of (page_result (net 0 (result_url "36095" 5)))
  ++ rows_of (page_result (net 0 (result_url "36095" 6)))
  ++ rows_of (page_result (net 0 (result_url "36095" 9))).

Definition requests : list string :=
  [index_url "36095"; result_url "36095" 5] ++ map (result_url "36095") (ids_from 5 17).

(** A page without [h2] whose title starts with the separator. *)
Definition page_blank_title : node :=
  document " | Tabroom" [Elem "h4" [] [Text "TFA Qualification Points"]].

(** A page with two marked headings, each followed by a table. *)
Definition table_a : node := Elem "table" [] [tr [th "Round"; th "Room"]].
Definition table_b : node :=
  Elem "table" [] [header_row; data_row "10" "1" "Ada Park" "Central HS" "LD"].

Definition page_two_headings : node :=
  document "Results | Tabroom"
           [Elem "h3" [] [Text "TFA Schedule"];
            table_a;
            Elem "h3" [] [Text "TFA Qualification"];
            table_b].

(** A table whose first row is already a data row. *)
Definition table_no_header : node :=
  Elem "table" []
       [data_row "10" "1" "Ada Park" "Central HS" "LD";
        data_row "8" "2" "Lee Cho" "North HS" "LD"].

(** A table whose first row has no cell at all. *)
Definition table_blank_first_row : node :=
  Elem "table" []
       [tr [];
        data_row "8" "2" "Lee Cho" "North HS" "LD"].

End Demo.

(* ================================================================= *)
(** ** Further vocabulary *)

(** The identifier a link of the index page contributes, if any: the
    argument of [ids.add] on lines 26-29. *)
Definition link_id (a : node) : option Z :=
  let href := match attr "href" a with Some h => h | None => EmptyString end in
  match Re.search result_id_pattern href with
  | Some g => Some (Str.digits_val (String.substring 10 (String.length g - 10) g))
  | None => None
  end.

(** The rows of the probe for identifier [r] sent as request number [c]. *)
Definition probe_rows (net : nat -> string -> response) (tourn_id : string)
           (c : nat) (r : Z) : list dict :=
  rows_of (page_result (net c (result_url tourn_id r))).

(* ================================================================= *)
(** ** The embedding on small inputs *)

Example points_thousands : extract_points "1,234.5" = Some (12345 # 10)%Q.
Proof. reflexivity. Qed.

Example points_signed : extract_points "-12" = Some (-12 # 1)%Q.
Proof. reflexivity. Qed.

Example points_bare_fraction : extract_points "+.5" = Some (5 # 10)%Q.
Proof. reflexivity. Qed.

Example points_none : extract_points "n/a" = None.
Proof. reflexivity. Qed.

Example result_id_leftmost_with_digits :
  Re.search result_id_pattern "x?result_id=&result_id=55&y" = Some "result_id=55".
Proof. reflexivity. Qed.

Example str_of_int_samples :
  (Str.str_of_int 0, Str.str_of_int 21, Str.str_of_int 1000, Str.str_of_int (-105))
  = ("0", "21", "1000", "-105").
Proof. reflexivity. Qed.

Example sorted_ids : sorted [9; 5; 6] = [5; 6; 9].
Proof. reflexivity. Qed.

Example event_name_from_h2 : get_event_name Demo.page5 = "Lincoln Douglas".
Proof. reflexivity. Qed.

Example event_name_from_title : get_event_name (Demo.document "Finals | Tabroom" []) = "Finals".
Proof. reflexivity. Qed.

Example event_name_sentinel : get_event_name (Elem "[document]" [] []) = "Unknown Event".
Proof. reflexivity. Qed.

Example mixed_heading_has_no_string :
  node_string (Elem "h3" [] [Text "TFA "; Elem "b" [] [Text "Qualification"]]) = None.
Proof. reflexivity. Qed.

Example fallback_by_header_row :
  find_tfa_table (Demo.document "Results" [Demo.table_b]) = Some Demo.table_b.
Proof. reflexivity. Qed.

Example short_row_skipped :
  row_record (Demo.tr [Demo.td "10"; Demo.td "1"; Demo.td "Ada Park"]) "LD" = None.
Proof. reflexivity. Qed.

Example candidates_of_demo_index :
  fst (extract_result_ids_from_index Demo.net "36095" []) = Val [5; 6; 9].
Proof. reflexivity. Qed.

Example http_status_raises :
  fst (get_soup Demo.net_404 (result_url "36095" 7) []) = Raise HTTPError.
Proof. reflexivity. Qed.

(* ================================================================= *)
(** ** Facts about characters and strings *)

Arguments Str.is_digit : simpl never.
Arguments Str.is_sign : simpl never.
Arguments Str.is_dot : simpl never.
Arguments Str.is_space : simpl never.

Section StringFacts.



Lemma digit_not_comma c : Str.is_digit c = true -> Ascii.eqb c ","%char = false.
Proof.
  destruct c as [[|] [|] [|] [|] [|] [|] [|] [|]]; cbv; congruence.
Qed.




Lemma app_assoc_str (a b c : string) : ((a ++ b) ++ c = a ++ b ++ c)%string.
Proof. induction a; simpl; congruence. Qed.




End StringFacts.

(* ================================================================= *)
(** ** The points pattern *)

Section PointsPattern.












Lemma search_eq (m : Re.matcher) (s : string) :
  Re.search m s =
  match m s with
  | Some (g, _) => Some g
  | None => match s with String _ s' => Re.search m s' | EmptyString => None end
  end.
Proof. destruct s; reflexivity. Qed.











End PointsPattern.




(* ================================================================= *)
(** ** The event name *)

Section EventName.

Lemma get_event_name_without_title (soup : node) :
  find ["title"] soup = None -> get_event_name soup <> EmptyString.
Proof.
  intros Ht. unfold get_event_name. rewrite Ht.
  destruct (find ["h2"] soup) as [h2|]; [|discriminate].
  destruct (get_text " " true h2) eqn:E; simpl; [discriminate|].
  intros H; discriminate H.
Qed.

Lemma get_event_name_from_heading (soup h2 : node) :
  find ["h2"] soup = Some h2 -> get_text " " true h2 <> EmptyString ->
  get_event_name soup = get_text " " true h2.
Proof.
  intros Hh Hn. unfold get_event_name. rewrite Hh.
  destruct (get_text " " true h2); [congruence | reflexivity].
Qed.

End EventName.

(** C4 (fails on the code): on a page without [h2] whose title is
    [" | Tabroom"], the title is found and its text is not empty, so the
    fragment before the separator is returned after stripping, and that
    fragment is the empty string: [get_event_name] returns [""]. *)
Theorem get_event_name_blank_title_fragment :
  find ["h2"] Demo.page_blank_title = None
  /\ option_map (get_text "" false) (find ["title"] Demo.page_blank_title) = Some " | Tabroom"
  /\ get_event_name Demo.page_blank_title = EmptyString.
Proof. repeat split. Qed.

(* ================================================================= *)
(** ** The rows of a table *)

Section RowParser.

Lemma parse_rows_loop_records (rows : list node) (ev : string) (out : list dict) :
  parse_rows_loop rows ev out = out ++ rows_records rows ev.
Proof.
  revert out. induction rows as [|tr rows IH]; intros out; simpl.
  - now rewrite app_nil_r.
  - destruct (row_record tr ev) as [r|]; rewrite IH; simpl; [|reflexivity].
    now rewrite <- app_assoc.
Qed.

Lemma row_record_keys (tr : node) (ev : string) (r : dict) :
  row_record tr ev = Some r -> dict_keys r = scraper_keys.
Proof.
  unfold row_record. destruct (length (find_all ["td"] tr) <? 4)%nat; [discriminate|].
  destruct (extract_points _); [|discriminate].
  intros H. injection H as <-. reflexivity.
Qed.

Lemma rows_records_keys (rows : list node) (ev : string) :
  Forall (fun r => dict_keys r = scraper_keys) (rows_records rows ev).
Proof.
  induction rows as [|tr rows IH]; simpl; [constructor|].
  destruct (row_record tr ev) as [r|] eqn:E; simpl; [|assumption].
  constructor; [eapply row_record_keys; eauto | assumption].
Qed.

(** Every record of [parse_tfa_rows] has the five keys of the scraper. *)
Lemma parse_tfa_rows_keys (table : node) (ev : string) :
  Forall (fun r => dict_keys r = scraper_keys) (parse_tfa_rows table ev).
Proof.
  unfold parse_tfa_rows. destruct (find_all ["tr"] table) as [|r0 rest]; [constructor|].
  rewrite parse_rows_loop_records. apply rows_records_keys.
Qed.

End RowParser.

(** C1 (fails on the code): on a tournament with qualification tables the
    pipeline returns rows, each with the keys [points], [entry], [school],
    [qualifying_event] and [event] and no [tournament] key, and the column
    selection of the admin panel on these rows raises [KeyError]. *)
Theorem scraped_rows_lack_tournament :
  exists scraped,
    fst (scrape_tfa_tournament Demo.net 17 "36095" 12 []) = Val scraped
    /\ length scraped = 4%nat
    /\ Forall (fun r => dict_keys r = ["points"; "entry"; "school"; "qualifying_event"; "event"]
                        /\ dict_get "tournament" r = None) scraped
    /\ App.new_df scraped = None.
Proof.
  eexists. split; [vm_compute; reflexivity|].
  split; [reflexivity|]. split; [|reflexivity].
  repeat constructor.
Qed.

(** C8: the row parser leaves out the first row of the table whenever that
    row has a [th] or [td] cell, whatever that row holds: the records are
    those of the rows after it.  Only when the first row has no cell does
    the loop start at the first row. *)
Theorem first_row_with_cells_is_skipped (table : node) (ev : string) (r0 : node) (rest : list node) :
  find_all ["tr"] table = r0 :: rest ->
  (find_all ["th"; "td"] r0 <> [] -> parse_tfa_rows table ev = rows_records rest ev)
  /\ (find_all ["th"; "td"] r0 = [] ->
      parse_tfa_rows table ev = parse_rows_loop (r0 :: rest) ev []
      /\ parse_tfa_rows table ev = rows_records (r0 :: rest) ev).
Proof.
  intros Hrows. unfold parse_tfa_rows. rewrite Hrows.
  split; intros Hcells.
  - destruct (find_all ["th"; "td"] r0); [congruence|].
    simpl skipn. now rewrite parse_rows_loop_records.
  - rewrite Hcells. simpl skipn. split; [reflexivity|].
    now rewrite parse_rows_loop_records.
Qed.

Lemma first_row_with_cells_is_skipped_witness :
  (row_record (Demo.data_row "10" "1" "Ada Park" "Central HS" "LD") "LD" <> None
   /\ parse_tfa_rows Demo.table_no_header "LD"
      = rows_records [Demo.data_row "8" "2" "Lee Cho" "North HS" "LD"] "LD")
  /\ parse_tfa_rows Demo.table_blank_first_row "LD"
     = rows_records [Demo.tr []; Demo.data_row "8" "2" "Lee Cho" "North HS" "LD"] "LD".
Proof.
  split; [split|].
  - vm_compute. discriminate.
  - apply (first_row_with_cells_is_skipped Demo.table_no_header "LD"
             (Demo.data_row "10" "1" "Ada Park" "Central HS" "LD")
             [Demo.data_row "8" "2" "Lee Cho" "North HS" "LD"] eq_refl).
    vm_compute. discriminate.
  - apply (first_row_with_cells_is_skipped Demo.table_blank_first_row "LD"
             (Demo.tr []) [Demo.data_row "8" "2" "Lee Cho" "North HS" "LD"] eq_refl).
    reflexivity.
Defined.

(* ================================================================= *)
(** ** The table locator *)

Section TableLocator.

Lemma find_index_least {A} (p : A -> bool) (l : list A) (i : nat) (x : A) :
  nth_error l i = Some x -> p x = true ->
  (forall j y, (j < i)%nat -> nth_error l j = Some y -> p y = false) ->
  find_index p l = Some i.
Proof.
  revert i. induction l as [|a l IH]; intros i Hn Hp Hless.
  - destruct i; discriminate.
  - destruct i as [|i]; simpl in *.
    + injection Hn as ->. now rewrite Hp.
    + rewrite (Hless O a) by (auto; lia).
      rewrite (IH i Hn Hp); [reflexivity|].
      intros j y Hj Hy. apply (Hless (S j) y); [lia | exact Hy].
Qed.

Lemma find_index_after_least {A} (p : A -> bool) (l : list A) (h t : nat) (x : A) :
  (h < t)%nat -> nth_error l t = Some x -> p x = true ->
  (forall j y, (h < j < t)%nat -> nth_error l j = Some y -> p y = false) ->
  find_index_after h p l = Some t.
Proof.
  intros Hht Hn Hp Hbetween. unfold find_index_after.
  rewrite (find_index_least p (skipn (S h) l) (t - S h) x).
  - simpl. f_equal. lia.
  - rewrite nth_error_skipn. replace (S h + (t - S h))%nat with t by lia. exact Hn.
  - exact Hp.
  - intros j y Hj Hy. rewrite nth_error_skipn in Hy.
    apply (Hbetween (S h + j)%nat y); [lia | exact Hy].
Qed.

Lemma prefix_app_l (a b s : string) :
  String.prefix (a ++ b) s = true -> String.prefix a s = true.
Proof.
  revert s. induction a as [|c a IH]; intros s; destruct s as [|d s]; simpl;
    try reflexivity; try discriminate.
  destruct (ascii_dec c d); [apply IH | discriminate].
Qed.

Lemma contains_eq (sub s : string) :
  Str.contains sub s =
  String.prefix sub s
  || match s with EmptyString => false | String _ s' => Str.contains sub s' end.
Proof. destruct s; reflexivity. Qed.

Lemma contains_app_l (a b s : string) :
  Str.contains (a ++ b) s = true -> Str.contains a s = true.
Proof.
  induction s as [|c s IH].
  - rewrite (contains_eq (a ++ b)), (contains_eq a). intros H.
    apply orb_true_iff in H as [H | H]; [|discriminate].
    apply orb_true_iff. left. eapply prefix_app_l; eauto.
  - rewrite (contains_eq (a ++ b) (String c s)), (contains_eq a (String c s)).
    intros H. apply orb_true_iff in H as [H | H]; apply orb_true_iff.
    + left. eapply prefix_app_l; eauto.
    + right. auto.
Qed.

(** A heading whose string contains the full title carries the marker. *)
Lemma full_title_is_marker (s : string) :
  Str.contains "TFA Qualification" s = true -> heading_marker (Some s) = true.
Proof.
  intros H. unfold heading_marker.
  rewrite (contains_app_l "TFA" " Qualification" s H).
  destruct s; [discriminate H | reflexivity].
Qed.

End TableLocator.

(** C6 (as stated, refuted): the page has an [h3] heading whose text is
    "TFA Qualification", followed by a table (position 15 in document
    order), but the locator returns the table at position 7, the one
    that follows the earlier heading "TFA Schedule". *)
Lemma later_heading_table_not_selected :
  nth_error (descendants Demo.page_two_headings) 13
    = Some (Elem "h3" [] [Text "TFA Qualification"])
  /\ find_index_after 13 (is_tag ["table"]) (descendants Demo.page_two_headings) = Some 15%nat
  /\ nth_error (descendants Demo.page_two_headings) 15 = Some Demo.table_b
  /\ find_tfa_table_pos Demo.page_two_headings = Some 7%nat
  /\ find_tfa_table Demo.page_two_headings = Some Demo.table_a
  /\ Demo.table_a <> Demo.table_b.
Proof. repeat split. discriminate. Qed.

(** C6 (amended): when an [h3] or [h4] element whose string contains
    "TFA Qualification" is the first [h3]/[h4] of the page, in document
    order, whose string contains "TFA" or "Qualification", and a table
    follows it, the locator returns the first table after that heading,
    whatever other tables the page has. *)
Theorem first_marked_heading_table_is_selected
        (soup heading tbl : node) (s : string) (h t : nat) :
  nth_error (descendants soup) h = Some heading ->
  is_tag ["h3"; "h4"] heading = true ->
  node_string heading = Some s ->
  Str.contains "TFA Qualification" s = true ->
  (forall j n, (j < h)%nat -> nth_error (descendants soup) j = Some n ->
               is_marked_heading n = false) ->
  (h < t)%nat ->
  nth_error (descendants soup) t = Some tbl ->
  is_tag ["table"] tbl = true ->
  (forall j n, (h < j < t)%nat -> nth_error (descendants soup) j = Some n ->
               is_tag ["table"] n = false) ->
  find_tfa_table_pos soup = Some t /\ find_tfa_table soup = Some tbl.
Proof.
  intros Hh Htag Hstr Hs Hfirst Hht Ht Htbl Hbetween.
  assert (Hpos : find_tfa_table_pos soup = Some t).
  { unfold find_tfa_table_pos.
    rewrite (find_index_least is_marked_heading _ h heading Hh); [|
      unfold is_marked_heading; rewrite Htag, Hstr; now apply full_title_is_marker | exact Hfirst].
    now rewrite (find_index_after_least _ _ h t tbl Hht Ht Htbl Hbetween). }
  split; [exact Hpos|]. unfold find_tfa_table. now rewrite Hpos.
Qed.

Lemma first_marked_heading_table_is_selected_witness :
  find_tfa_table_pos Demo.page5 = Some 9%nat
  /\ find_tfa_table Demo.page5
     = Some (Elem "table" [] [Demo.header_row;
                              Demo.data_row "10" "1" "Ada Park" "Central HS" "LD"]).
Proof.
  apply (first_marked_heading_table_is_selected
           Demo.page5 (Elem "h4" [] [Text "TFA Qualification Points"])
           (Elem "table" [] [Demo.header_row;
                             Demo.data_row "10" "1" "Ada Park" "Central HS" "LD"])
           "TFA Qualification Points" 7 9).
  - reflexivity.
  - reflexivity.
  - reflexivity.
  - reflexivity.
  - intros j n Hj. do 7 (destruct j as [|j]; [intros [= <-]; reflexivity|]). lia.
  - lia.
  - reflexivity.
  - reflexivity.
  - intros j n Hj. assert (j = 8%nat) as -> by lia. intros [= <-]. reflexivity.
Defined.

(* ================================================================= *)
(** ** Probes and the scanning loop *)

Section ScanFacts.

Variable net : nat -> string -> response.
Variable tourn_id : string.

Local Abbreviation url := (result_url tourn_id).

Lemma page_has_tfa_points_eq (r : Z) (log : list string) :
  page_has_tfa_points net tourn_id r log
  = (page_result (net (length log) (url r)), log ++ [url r]).
Proof.
  unfold page_has_tfa_points, try_except_HTTPError, get_soup, bind, session_get,
    raise_for_status, page_result.
  destruct (net (length log) (result_url tourn_id r)) as [| |status soup]; try reflexivity.
  simpl. destruct ((400 <=? status) && (status <? 600)); simpl; [reflexivity|].
  destruct (find_tfa_table soup); reflexivity.
Qed.

Lemma page_result_not_out (r : response) : page_result r <> OutOfFuel.
Proof.
  destruct r as [| |status soup]; simpl; try discriminate.
  destruct ((400 <=? status) && (status <? 600)); [discriminate|].
  destruct (find_tfa_table soup); discriminate.
Qed.

(** The loop, one turn unfolded. *)
Lemma scan_loop_eq (fuel : nat) (limit : Z) (st : ScanState) (log : list string) :
  scan_loop net fuel tourn_id limit st log =
  if empty_streak st <? limit then
    match fuel with
    | O => (OutOfFuel, log)
    | S fuel' =>
        match page_result (net (length log) (url (rid st))) with
        | Val p => scan_loop net fuel' tourn_id limit (scan_next st (fst p)) (log ++ [url (rid st)])
        | Raise e => (Raise e, log ++ [url (rid st)])
        | OutOfFuel => (OutOfFuel, log ++ [url (rid st)])
        end
    end
  else (Val st, log).
Proof.
  destruct fuel as [|fuel']; simpl.
  - destruct (empty_streak st <? limit); reflexivity.
  - destruct (empty_streak st <? limit); [|reflexivity].
    unfold bind. rewrite page_has_tfa_points_eq.
    destruct (page_result _); reflexivity.
Qed.

Lemma scan_stops (fuel : nat) (limit : Z) (st : ScanState) (log : list string) :
  limit <= empty_streak st ->
  scan_loop net fuel tourn_id limit st log = (Val st, log).
Proof.
  intros H. rewrite scan_loop_eq.
  destruct (Z.ltb_spec (empty_streak st) limit); [lia | reflexivity].
Qed.

Lemma scan_turn (fuel : nat) (limit : Z) (st : ScanState) (log : list string)
      (rows : list dict) (ev : string) :
  empty_streak st < limit ->
  page_result (net (length log) (url (rid st))) = Val (rows, ev) ->
  scan_loop net (S fuel) tourn_id limit st log
  = scan_loop net fuel tourn_id limit (scan_next st rows) (log ++ [url (rid st)]).
Proof.
  intros Hlt Hp. rewrite scan_loop_eq, Hp.
  destruct (Z.ltb_spec (empty_streak st) limit); [reflexivity | lia].
Qed.

Lemma scan_next_rows (st : ScanState) (rows : list dict) :
  rows <> [] -> scan_next st rows = mkScan (rid st + 1) 0 (all_rows st ++ rows).
Proof. destruct rows; [congruence | reflexivity]. Qed.

(** A run of [m] probes that all come back empty. *)
Lemma scan_empty_run (m fuel : nat) (limit : Z) (st : ScanState) (log : list string) :
  (forall k, (k < m)%nat ->
     exists ev, page_result (net (length log + k) (url (rid st + Z.of_nat k))) = Val ([], ev)) ->
  empty_streak st + Z.of_nat m <= limit ->
  scan_loop net (m + fuel) tourn_id limit st log
  = scan_loop net fuel tourn_id limit
      (mkScan (rid st + Z.of_nat m) (empty_streak st + Z.of_nat m) (all_rows st))
      (log ++ map url (ids_from (rid st) m)).
Proof.
  revert st log. induction m as [|m IH]; intros st log Hempty Hlim.
  - simpl. rewrite app_nil_r, !Z.add_0_r. now destruct st.
  - destruct (Hempty O ltac:(lia)) as [ev Hev].
    rewrite Nat.add_0_r, Z.add_0_r in Hev.
    change (S m + fuel)%nat with (S (m + fuel)).
    rewrite (scan_turn _ _ _ _ [] ev) by (auto; lia).
    rewrite IH.
    + unfold scan_next. cbn [rid empty_streak all_rows ids_from map].
      rewrite Nat2Z.inj_succ, <- app_assoc. cbn [app].
      replace (rid st + 1 + Z.of_nat m) with (rid st + Z.succ (Z.of_nat m)) by lia.
      replace (empty_streak st + 1 + Z.of_nat m)
        with (empty_streak st + Z.succ (Z.of_nat m)) by lia.
      reflexivity.
    + intros k Hk. destruct (Hempty (S k) ltac:(lia)) as [ev' Hev'].
      exists ev'. rewrite <- Hev'. unfold scan_next. cbn [rid].
      rewrite length_app. cbn [length].
      replace (length log + 1 + k)%nat with (length log + S k)%nat by lia.
      replace (rid st + 1 + Z.of_nat k) with (rid st + Z.of_nat (S k)) by lia.
      reflexivity.
    + unfold scan_next. cbn [empty_streak]. lia.
Qed.

(** More fuel does not change the outcome of a loop that ended. *)
Lemma scan_fuel_mono (fuel k : nat) (limit : Z) (st : ScanState) (log : list string) r log' :
  scan_loop net fuel tourn_id limit st log = (r, log') -> r <> OutOfFuel ->
  scan_loop net (fuel + k) tourn_id limit st log = (r, log').
Proof.
  revert st log. induction fuel as [|fuel IH]; intros st log; rewrite !scan_loop_eq.
  - destruct (empty_streak st <? limit).
    + intros [= <- <-] H. congruence.
    + intros H _. simpl. destruct k; exact H.
  - simpl. destruct (empty_streak st <? limit); [|auto].
    destruct (page_result _); auto.
Qed.

(** When the loop ends normally the streak has reached the limit. *)
Lemma scan_final_streak (fuel : nat) (limit : Z) (st st' : ScanState) (log log' : list string) :
  0 <= limit -> empty_streak st <= limit ->
  scan_loop net fuel tourn_id limit st log = (Val st', log') ->
  empty_streak st' = limit.
Proof.
  intros Hl. revert st log. induction fuel as [|fuel IH]; intros st log Hst; rewrite scan_loop_eq;
    destruct (Z.ltb_spec (empty_streak st) limit) as [Hlt|Hge].
  - discriminate.
  - intros [= <- <-]. lia.
  - destruct (page_result _) as [p| |]; try discriminate.
    apply IH. unfold scan_next. destruct (fst p); simpl; lia.
  - intros [= <- <-]. lia.
Qed.

(** The rows accumulated by the loop are those of its own probes, one
    probe for each identifier from the starting one on. *)
Lemma scan_loop_rows (fuel : nat) (limit : Z) (st st' : ScanState) (log log' : list string) :
  scan_loop net fuel tourn_id limit st log = (Val st', log') ->
  exists n,
    log' = log ++ map url (ids_from (rid st) n)
    /\ rid st' = rid st + Z.of_nat n
    /\ all_rows st' = all_rows st ++ scan_rows net tourn_id (length log) (rid st) n.
Proof.
  revert st log. induction fuel as [|fuel IH]; intros st log; rewrite scan_loop_eq;
    destruct (empty_streak st <? limit).
  - discriminate.
  - intros [= <- <-]. exists O. simpl. rewrite !app_nil_r. split; [|split]; auto; lia.
  - destruct (page_result _) as [p| |] eqn:Hp; try discriminate.
    intros H. apply IH in H as (n & Hlog & Hrid & Hrows).
    exists (S n). simpl. fold (url (rid st)). rewrite Hp.
    rewrite Hlog, Hrid, Hrows. rewrite <- app_assoc. simpl.
    rewrite length_app. simpl. rewrite Nat.add_1_r.
    assert (Hn : rid (scan_next st (fst p)) = rid st + 1)
      by (unfold scan_next; destruct (fst p); reflexivity).
    rewrite Hn. split; [reflexivity|]. split; [lia|].
    unfold scan_next. destruct (fst p) eqn:E; simpl; [reflexivity|].
    now rewrite <- app_assoc.
  - intros [= <- <-]. exists O. simpl. rewrite !app_nil_r. split; [|split]; auto; lia.
Qed.

(** Past [bound] no probe returns rows: the loop ends within a number
    of turns computed from the identifiers left below [bound] and the
    limit. *)
Lemma scan_enough (bound limit : Z) :
  (forall n i rows ev, bound <= i ->
     page_result (net n (url i)) = Val (rows, ev) -> rows = []) ->
  forall fuel st log,
    (Z.max 0 limit + 1) * Z.max 0 (bound - rid st) + Z.max 0 (limit - empty_streak st)
      <= Z.of_nat fuel ->
    fst (scan_loop net fuel tourn_id limit st log) <> OutOfFuel.
Proof.
  intros Hfin. induction fuel as [|fuel IH]; intros st log Hm; rewrite scan_loop_eq;
    destruct (Z.ltb_spec (empty_streak st) limit) as [Hlt|Hge]; try (simpl; discriminate).
  - exfalso. nia.
  - destruct (page_result (net (length log) (url (rid st)))) as [[rows ev]| |] eqn:Hp.
    + apply IH. destruct rows as [|r rows]; unfold scan_next; cbn [fst rid empty_streak].
      * nia.
      * assert (rid st < bound).
        { destruct (Z.lt_ge_cases (rid st) bound) as [|Hb]; [assumption|].
          specialize (Hfin _ _ _ _ Hb Hp). discriminate. }
        nia.
    + simpl. discriminate.
    + exfalso. eapply page_result_not_out; eauto.
Qed.

End ScanFacts.

(* ================================================================= *)
(** ** Discovery and seeking *)

Section Discovery.

Variable net : nat -> string -> response.
Variable tourn_id : string.

Lemma extract_result_ids_log (log : list string) r log' :
  extract_result_ids_from_index net tourn_id log = (r, log') ->
  log' = log ++ [index_url tourn_id] /\ r <> OutOfFuel.
Proof.
  unfold extract_result_ids_from_index, get_soup, bind, session_get, raise_for_status.
  destruct (net (length log) (index_url tourn_id)) as [| |status soup].
  - intros [= <- <-]. split; [reflexivity | discriminate].
  - intros [= <- <-]. split; [reflexivity | discriminate].
  - simpl. destruct ((400 <=? status) && (status <? 600)); simpl;
      intros [= <- <-]; (split; [reflexivity | discriminate]).
Qed.

Lemma seek_loop_log (rids : list Z) (log : list string) r log' :
  seek_loop net tourn_id rids log = (r, log') ->
  r <> OutOfFuel
  /\ exists probed,
       log' = log ++ map (result_url tourn_id) probed
       /\ (forall x, r = Val (Some x) -> exists pre, probed = pre ++ [x])
       /\ (r = Val None ->
           forall k x, nth_error probed k = Some x ->
             rows_of (page_result (net (length log + k) (result_url tourn_id x))) = []).
Proof.
  revert log. induction rids as [|x rids IH]; intros log; simpl.
  - intros [= <- <-]. split; [discriminate|]. exists [].
    simpl. rewrite app_nil_r. split; [reflexivity|]. split; [discriminate|].
    intros _ [|k] y; discriminate.
  - unfold bind. rewrite page_has_tfa_points_eq.
    destruct (page_result _) as [[rows ev]| |] eqn:Hp.
    + destruct rows as [|d rows]; simpl.
      * intros H. apply IH in H as (Hr & probed & Hlog & Hlast & Hnone).
        split; [exact Hr|]. exists (x :: probed). simpl.
        rewrite Hlog, <- app_assoc. split; [reflexivity|]. split.
        -- intros y Hy. destruct (Hlast y Hy) as [pre ->]. now exists (x :: pre).
        -- intros Hr0 [|k] y Hy; simpl in Hy.
           ++ injection Hy as <-. rewrite Nat.add_0_r, Hp. reflexivity.
           ++ specialize (Hnone Hr0 k y Hy). rewrite length_app in Hnone. simpl in Hnone.
              now replace (length log + S k)%nat with (length log + 1 + k)%nat by lia.
      * intros [= <- <-]. split; [discriminate|]. exists [x].
        split; [reflexivity|]. split; [|discriminate].
        intros y [= <-]. now exists [].
    + intros [= <- <-]. split; [discriminate|]. exists [x].
      split; [reflexivity|]. split; discriminate.
    + exfalso. eapply page_result_not_out; eauto.
Qed.

End Discovery.

(* ================================================================= *)
(** ** The sample site past its last table *)

Section DemoSite.

Lemma pos_digits_grows (fuel : nat) (n : Z) (acc : string) :
  exists pre, Str.pos_digits fuel n acc = (pre ++ acc)%string
              /\ (fuel <> O -> pre <> EmptyString).
Proof.
  revert n acc. induction fuel as [|fuel IH]; intros n acc.
  - exists EmptyString. split; [reflexivity | congruence].
  - cbn [Str.pos_digits]. destruct (n <? 10).
    + eexists (String _ EmptyString). split; [reflexivity | discriminate].
    + destruct (IH (n / 10) (String (ascii_of_N (Z.to_N (48 + n mod 10))) acc))
        as (pre & -> & _).
      exists (pre ++ String (ascii_of_N (Z.to_N (48 + n mod 10))) EmptyString)%string.
      split; [now rewrite app_assoc_str|].
      intros _. destruct pre; discriminate.
Qed.

Lemma pos_digits_S (fuel : nat) (n : Z) (acc : string) :
  Str.pos_digits (S fuel) n acc =
  if n <? 10 then String (ascii_of_N (Z.to_N (48 + n mod 10))) acc
  else Str.pos_digits fuel (n / 10) (String (ascii_of_N (Z.to_N (48 + n mod 10))) acc).
Proof. reflexivity. Qed.

Lemma str_of_int_two_chars (i : Z) :
  10 <= i -> exists c1 c2 rest, Str.str_of_int i = String c1 (String c2 rest).
Proof.
  intros Hi. unfold Str.str_of_int.
  destruct (Z.ltb_spec i 0); [lia|].
  assert (Hlog : 3 <= Z.log2 i) by (apply Z.log2_le_pow2; simpl; lia).
  destruct (Z.to_nat (Z.log2 i)) as [|m] eqn:E; [lia|].
  rewrite pos_digits_S. destruct (Z.ltb_spec i 10); [lia|].
  destruct (pos_digits_grows (S m) (i / 10)
              (String (ascii_of_N (Z.to_N (48 + i mod 10))) EmptyString))
    as (pre & -> & Hpre).
  destruct pre as [|c pre]; [now destruct Hpre|].
  destruct pre as [|c' pre]; simpl; eauto.
Qed.

Lemma demo_net_plain (n : nat) (i : Z) :
  10 <= i -> Demo.net n (result_url "36095" i) = Reply 200 Demo.plain_page.
Proof.
  intros Hi. destruct (str_of_int_two_chars i Hi) as (c1 & c2 & rest & E).
  unfold Demo.net, result_url, index_url, BASE. rewrite E. simpl.
  repeat match goal with |- context [Ascii.eqb c1 ?c] => destruct (Ascii.eqb c1 c) end;
    reflexivity.
Qed.

End DemoSite.

(* ================================================================= *)
(** ** The pipeline *)

(** C2 (as stated, refuted): a request that times out, or that cannot
    connect, is not turned into an empty result.  The exception leaves
    [page_has_tfa_points] and [scrape_tfa_tournament], and the rows of
    pages 5 and 6 gathered before it are lost. *)
Lemma timeout_aborts_scan :
  page_has_tfa_points Demo.net_timeout "36095" 7 []
    = (Raise Timeout, [result_url "36095" 7])
  /\ fst (scrape_tfa_tournament Demo.net_timeout 17 "36095" 12 []) = Raise Timeout
  /\ page_has_tfa_points Demo.net_refused "36095" 7 []
     = (Raise ConnectionError, [result_url "36095" 7])
  /\ fst (scrape_tfa_tournament Demo.net_refused 17 "36095" 12 []) = Raise ConnectionError.
Proof. repeat split; vm_compute; reflexivity. Qed.

(** C2 (amended): when the answer to a probe has an HTTP failure status
    (400 to 599), [page_has_tfa_points] returns no rows together with the
    event name "Unknown Event", and a scanning loop whose turn it is goes
    on with the next identifier and the streak of empty probes one
    longer. *)
Theorem http_failure_probe_counts_as_empty
        (net : nat -> string -> response) (tourn_id : string) (r : Z)
        (log : list string) (status : Z) (soup : node) :
  net (length log) (result_url tourn_id r) = Reply status soup ->
  400 <= status < 600 ->
  page_has_tfa_points net tourn_id r log
    = (Val ([], "Unknown Event"), log ++ [result_url tourn_id r])
  /\ forall fuel limit st,
       rid st = r -> empty_streak st < limit ->
       scan_loop net (S fuel) tourn_id limit st log
       = scan_loop net fuel tourn_id limit
           (mkScan (r + 1) (empty_streak st + 1) (all_rows st))
           (log ++ [result_url tourn_id r]).
Proof.
  intros Hnet Hstatus.
  assert (Hp : page_result (net (length log) (result_url tourn_id r))
               = Val ([], "Unknown Event")).
  { rewrite Hnet. simpl.
    destruct (Z.leb_spec 400 status); [|lia].
    destruct (Z.ltb_spec status 600); [reflexivity | lia]. }
  split.
  - now rewrite page_has_tfa_points_eq, Hp.
  - intros fuel limit st Hr Hlt. subst r.
    now rewrite (scan_turn net tourn_id fuel limit st log [] "Unknown Event" Hlt Hp).
Qed.

Lemma http_failure_probe_counts_as_empty_witness :
  page_has_tfa_points Demo.net_404 "36095" 7 []
    = (Val ([], "Unknown Event"), [result_url "36095" 7])
  /\ scan_loop Demo.net_404 (S 12) "36095" 12 (mkScan 7 0 []) []
     = scan_loop Demo.net_404 12 "36095" 12 (mkScan 8 1 []) [result_url "36095" 7].
Proof.
  destruct (http_failure_probe_counts_as_empty
              Demo.net_404 "36095" 7 [] 404 Demo.plain_page eq_refl ltac:(lia))
    as [Hprobe Hloop].
  split; [exact Hprobe|].
  apply (Hloop 12%nat 12 (mkScan 7 0 [])); [reflexivity | reflexivity].
Defined.

(** C7: when the index page of the tournament has no hyperlink to a
    result page, the pipeline returns the empty sequence as a value, and
    its only request is the one for the index page: no result page is
    asked for. *)
Theorem no_links_no_probe
        (net : nat -> string -> response) (fuel : nat) (tourn_id : string)
        (limit : Z) (log : list string) (status : Z) (soup : node) :
  net (length log) (index_url tourn_id) = Reply status soup ->
  status < 400 \/ 600 <= status ->
  select_result_links soup = [] ->
  scrape_tfa_tournament net fuel tourn_id limit log
    = (Val [], log ++ [index_url tourn_id])
  /\ forall r, result_url tourn_id r <> index_url tourn_id.
Proof.
  intros Hnet Hstatus Hlinks. split.
  - unfold scrape_tfa_tournament, extract_result_ids_from_index, get_soup, bind,
      session_get, raise_for_status.
    assert (Hok : (400 <=? status) && (status <? 600) = false).
    { destruct (Z.leb_spec 400 status); destruct (Z.ltb_spec status 600);
        try reflexivity; lia. }
    rewrite Hnet. simpl. rewrite Hok. simpl. rewrite Hlinks. reflexivity.
  - intros r. unfold result_url, index_url, BASE. simpl. intros [=].
Qed.

Lemma no_links_no_probe_witness :
  scrape_tfa_tournament Demo.net_no_links 0 "36095" 12 []
    = (Val [], [index_url "36095"])
  /\ forall r, result_url "36095" r <> index_url "36095".
Proof.
  apply (no_links_no_probe Demo.net_no_links 0 "36095" 12 [] 200 (Demo.index_page []));
    [reflexivity | lia | reflexivity].
Defined.

(** C9: when past some identifier no probe returns rows, the scanning
    loop with a limit of at least 1 ends: a number of turns exists for
    which, and beyond which, the loop returns (or passes on the exception
    of a probe), and when it returns the streak of empty probes equals
    the limit. *)
Theorem scanning_loop_terminates
        (net : nat -> string -> response) (tourn_id : string)
        (limit start bound : Z) (log : list string) :
  1 <= limit ->
  (forall log i rows ev log',
      bound <= i -> start <= i ->
      page_has_tfa_points net tourn_id i log = (Val (rows, ev), log') -> rows = []) ->
  exists fuel r log',
    r <> OutOfFuel
    /\ (forall fuel', (fuel <= fuel')%nat ->
          scan_loop net fuel' tourn_id limit (mkScan start 0 []) log = (r, log'))
    /\ (forall st', r = Val st' -> empty_streak st' = limit).
Proof.
  intros Hlimit Hfinite.
  set (b := Z.max bound start).
  set (fuel := Z.to_nat ((Z.max 0 limit + 1) * Z.max 0 (b - start) + Z.max 0 (limit - 0))).
  assert (Hend : fst (scan_loop net fuel tourn_id limit (mkScan start 0 []) log) <> OutOfFuel).
  { apply (scan_enough net tourn_id b limit).
    - intros n i rows ev Hi Hp.
      apply (Hfinite (repeat EmptyString n) i rows ev
                     (repeat EmptyString n ++ [result_url tourn_id i])); try lia.
      now rewrite page_has_tfa_points_eq, repeat_length, Hp.
    - cbn [rid empty_streak]. subst fuel. rewrite Z2Nat.id; [lia | nia]. }
  destruct (scan_loop net fuel tourn_id limit (mkScan start 0 []) log) as [r log'] eqn:Hrun.
  exists fuel, r, log'. simpl in Hend. split; [exact Hend|]. split.
  - intros fuel' Hle. replace fuel' with (fuel + (fuel' - fuel))%nat by lia.
    now apply scan_fuel_mono.
  - intros st' ->. eapply scan_final_streak; [| |exact Hrun]; simpl; lia.
Qed.

Lemma scanning_loop_terminates_witness :
  exists fuel r log',
    r <> OutOfFuel
    /\ (forall fuel', (fuel <= fuel')%nat ->
          scan_loop Demo.net fuel' "36095" 12 (mkScan 5 0 []) [] = (r, log'))
    /\ (forall st', r = Val st' -> empty_streak st' = 12).
Proof.
  apply (scanning_loop_terminates Demo.net "36095" 12 5 10 []); [lia|].
  intros log i rows ev log' Hi _.
  rewrite page_has_tfa_points_eq, demo_net_plain by exact Hi.
  vm_compute. intros [= <- _ _]. reflexivity.
Defined.

(** C10: whenever the pipeline returns rows after having found
    candidates, its requests are the index page, the probes of the
    seeking phase, and the probes of the scanning phase for the
    identifiers [start], [start+1], ... each asked exactly once; the
    rows returned are those of the scanning probes only, in that order.
    Nothing read while seeking is part of the result: seeking either
    ended on [start], which the scan then asks for again and whose rows
    enter the result once, or it met no rows at all. *)
Theorem scraped_rows_come_from_scan
        (net : nat -> string -> response) (fuel : nat) (tourn_id : string)
        (limit : Z) (log : list string) (rows : list dict) (log' : list string) :
  scrape_tfa_tournament net fuel tourn_id limit log = (Val rows, log') ->
  (rows = [] /\ log' = log ++ [index_url tourn_id])
  \/ exists (seek : list Z) (start : Z) (n : nat),
       log' = log ++ index_url tourn_id :: map (result_url tourn_id) seek
                  ++ map (result_url tourn_id) (ids_from start n)
       /\ rows = scan_rows net tourn_id (length log + 1 + length seek) start n
       /\ NoDup (ids_from start n)
       /\ ((exists pre, seek = pre ++ [start])
           \/ (forall k x, nth_error seek k = Some x ->
                  rows_of (page_result (net (length log + 1 + k)%nat (result_url tourn_id x))) = [])).
Proof.
  unfold scrape_tfa_tournament, bind.
  destruct (extract_result_ids_from_index net tourn_id log) as [[cands| |] log1] eqn:Hx;
    try discriminate.
  apply extract_result_ids_log in Hx as [-> _].
  destruct cands as [|c cands]; [intros [= <- <-]; now left|].
  unfold find_true_starting_result_id.
  destruct (seek_loop net tourn_id (sorted (c :: cands)) (log ++ [index_url tourn_id]))
    as [[found| |] log2] eqn:Hs; try discriminate.
  apply seek_loop_log in Hs as (_ & seek & -> & Hfound & Hnone).
  set (start := match found with Some r => r | None => list_min (c :: cands) end).
  destruct (scan_loop net fuel tourn_id limit (mkScan start 0 []) _)
    as [[st'| |] log3] eqn:Hscan; try discriminate.
  intros [= <- <-]. right.
  apply scan_loop_rows in Hscan as (n & Hlog & _ & Hrows).
  exists seek, start, n. cbn [rid all_rows app] in *.
  split; [|split; [|split]].
  - rewrite Hlog, <- !app_assoc. reflexivity.
  - rewrite Hrows. rewrite !length_app, length_map. reflexivity.
  - clear. generalize start. induction n as [|n IH]; intros s; simpl; constructor.
    + assert (Hge : forall m t x, In x (ids_from t m) -> t <= x).
      { induction m as [|m IHm]; simpl; [tauto|].
        intros t x [<- | Hin]; [lia | apply IHm in Hin; lia]. }
      intros Hin. apply Hge in Hin. lia.
    + apply IH.
  - destruct found as [x|].
    + left. apply (Hfound x eq_refl).
    + right. intros k x Hk. specialize (Hnone eq_refl k x Hk).
      rewrite length_app in Hnone. exact Hnone.
Qed.

Lemma scraped_rows_come_from_scan_witness :
  scrape_tfa_tournament Demo.net 17 "36095" 12 [] = (Val Demo.scraped, Demo.requests)
  /\ ((Demo.scraped = [] /\ Demo.requests = [] ++ [index_url "36095"])
      \/ exists (seek : list Z) (start : Z) (n : nat),
           Demo.requests = [] ++ index_url "36095" :: map (result_url "36095") seek
                             ++ map (result_url "36095") (ids_from start n)
           /\ Demo.scraped
              = scan_rows Demo.net "36095" (length (@nil string) + 1 + length seek) start n
           /\ NoDup (ids_from start n)
           /\ ((exists pre, seek = pre ++ [start])
               \/ (forall k x, nth_error seek k = Some x ->
                      rows_of (page_result (Demo.net (length (@nil string) + 1 + k)%nat
                                                     (result_url "36095" x))) = []))).
Proof.
  assert (Hrun : scrape_tfa_tournament Demo.net 17 "36095" 12 []
                 = (Val Demo.scraped, Demo.requests))
    by (vm_compute; reflexivity).
  split; [exact Hrun|].
  exact (scraped_rows_come_from_scan Demo.net 17 "36095" 12 [] _ _ Hrun).
Defined.

(* ================================================================= *)
(** ** Result-ID discovery *)

Section DiscoveryFacts.

Lemma add_link_id_eq (ids : list Z) (a : node) :
  add_link_id ids a = match link_id a with Some x => set_add x ids | None => ids end.
Proof.
  unfold add_link_id, link_id. destruct (Re.search result_id_pattern _); reflexivity.
Qed.

Lemma existsb_eqb_in (x : Z) (ids : list Z) :
  existsb (Z.eqb x) ids = true <-> In x ids.
Proof.
  rewrite existsb_exists. split.
  - intros (y & Hy & E). apply Z.eqb_eq in E. now subst.
  - intros H. exists x. split; [exact H | apply Z.eqb_refl].
Qed.

Lemma set_add_in (x y : Z) (ids : list Z) :
  In y (set_add x ids) <-> y = x \/ In y ids.
Proof.
  unfold set_add. destruct (existsb (Z.eqb x) ids) eqn:E.
  - apply existsb_eqb_in in E. split; [tauto | intros [-> | H]; assumption].
  - rewrite in_app_iff. simpl. split; [intros [H | [H | []]] | intros [H | H]]; auto.
Qed.

Lemma set_add_nodup (x : Z) (ids : list Z) : NoDup ids -> NoDup (set_add x ids).
Proof.
  intros H. unfold set_add. destruct (existsb (Z.eqb x) ids) eqn:E; [assumption|].
  assert (Hx : ~ In x ids).
  { intros Hin. apply existsb_eqb_in in Hin. congruence. }
  apply NoDup_rev in H. rewrite <- (rev_involutive (ids ++ [x])), rev_app_distr.
  apply NoDup_rev. simpl. constructor; [now rewrite <- in_rev | assumption].
Qed.

Lemma fold_add_nodup (links : list node) (acc : list Z) :
  NoDup acc -> NoDup (fold_left add_link_id links acc).
Proof.
  revert acc. induction links as [|a links IH]; intros acc H; simpl; [assumption|].
  apply IH. rewrite add_link_id_eq. destruct (link_id a); [now apply set_add_nodup | assumption].
Qed.

Lemma fold_add_in (links : list node) (acc : list Z) (x : Z) :
  In x (fold_left add_link_id links acc)
  <-> In x acc \/ exists a, In a links /\ link_id a = Some x.
Proof.
  revert acc. induction links as [|a links IH]; intros acc; simpl.
  - split; [tauto | intros [H | (a & [] & _)]; exact H].
  - rewrite IH, add_link_id_eq. destruct (link_id a) as [y|] eqn:E.
    + rewrite set_add_in. split.
      * intros [[-> | H] | (b & Hb & Hx)]; eauto.
      * intros [H | (b & [<- | Hb] & Hx)]; eauto.
        left. left. congruence.
    + split.
      * intros [H | (b & Hb & Hx)]; eauto.
      * intros [H | (b & [<- | Hb] & Hx)]; eauto. congruence.
Qed.

Lemma insert_sorted_in (x y : Z) (l : list Z) :
  In y (insert_sorted x l) <-> y = x \/ In y l.
Proof.
  induction l as [|z l IH]; simpl.
  - split; [intros [H | []]; auto | intros [H | []]; auto].
  - destruct (x <=? z); simpl; [|rewrite IH]; split; intuition auto.
Qed.

Lemma sorted_in (y : Z) (l : list Z) : In y (sorted l) <-> In y l.
Proof.
  induction l as [|x l IH]; simpl; [tauto|].
  rewrite insert_sorted_in, IH. split; intuition auto.
Qed.

Lemma insert_sorted_strict (x : Z) (l : list Z) :
  StronglySorted Z.lt l -> ~ In x l -> StronglySorted Z.lt (insert_sorted x l).
Proof.
  induction l as [|z l IH]; intros Hs Hx; simpl.
  - constructor; constructor.
  - apply StronglySorted_inv in Hs as [Hs Hz].
    destruct (Z.leb_spec x z).
    + assert (x < z) by (simpl in Hx; lia).
      constructor; [constructor; assumption|].
      constructor; [assumption|].
      rewrite Forall_forall in *. intros y Hy. specialize (Hz y Hy). lia.
    + constructor; [apply IH; [assumption | simpl in Hx; tauto]|].
      rewrite Forall_forall in *. intros y Hy.
      apply insert_sorted_in in Hy as [-> | Hy]; [lia | auto].
Qed.

Lemma sorted_strict (l : list Z) : NoDup l -> StronglySorted Z.lt (sorted l).
Proof.
  induction 1 as [|x l Hx Hl IH]; simpl; [constructor|].
  apply insert_sorted_strict; [assumption|]. now rewrite sorted_in.
Qed.

End DiscoveryFacts.

(* ================================================================= *)
(** ** What a match of the identifier pattern looks like *)

Section PatternShape.

Lemma star_accept_shape p (s g r : string) :
  Re.star p Re.accept s = Some (g, r) ->
  Str.str_all p g = true /\ s = (g ++ r)%string.
Proof.
  revert g r. induction s as [|c s IH]; intros g r; simpl.
  - intros [= <- <-]. split; reflexivity.
  - destruct (p c) eqn:Hc.
    + destruct (Re.star p Re.accept s) as [[g' r']|] eqn:E; simpl.
      * intros [= <- <-]. destruct (IH g' r' eq_refl) as [Hg ->].
        split; [simpl; now rewrite Hc | reflexivity].
      * intros [= <- <-]. split; reflexivity.
    + intros [= <- <-]. split; reflexivity.
Qed.

Lemma plus_accept_shape p (s g r : string) :
  Re.plus p Re.accept s = Some (g, r) ->
  Str.str_all p g = true /\ g <> EmptyString /\ s = (g ++ r)%string.
Proof.
  unfold Re.plus. destruct s as [|c s]; [discriminate|].
  destruct (p c) eqn:Hc; [|discriminate].
  destruct (Re.star p Re.accept s) as [[g' r']|] eqn:E; simpl; [|discriminate].
  intros [= <- <-]. destruct (star_accept_shape p s g' r' E) as [Hg ->].
  split; [simpl; now rewrite Hc|]. split; [discriminate | reflexivity].
Qed.

Lemma lit_shape (l : string) (k : Re.matcher) (s g r : string) :
  Re.lit l k s = Some (g, r) ->
  exists g', g = (l ++ g')%string /\ k (String.substring (String.length l) (String.length s - String.length l) s) = Some (g', r)
             /\ s = (l ++ String.substring (String.length l) (String.length s - String.length l) s)%string.
Proof.
  revert s g r. induction l as [|a l IH]; intros s g r; simpl.
  - intros H. exists g. rewrite Nat.sub_0_r.
    assert (Hs : String.substring 0 (String.length s) s = s).
    { clear. induction s as [|c s IHs]; simpl; [reflexivity | now rewrite IHs]. }
    rewrite Hs. auto.
  - destruct s as [|c s]; [discriminate|].
    destruct (Ascii.eqb a c) eqn:E; [|discriminate].
    apply Ascii.eqb_eq in E. subst c.
    destruct (Re.lit l k s) as [[g' r']|] eqn:El; simpl; [|discriminate].
    intros [= <- <-]. destruct (IH s g' r' El) as (g'' & -> & Hk & Hs).
    exists g''. simpl. split; [reflexivity|]. split; [exact Hk | now rewrite <- Hs].
Qed.

Lemma substring_app_l (l g : string) :
  String.substring (String.length l) (String.length (l ++ g) - String.length l) (l ++ g) = g.
Proof.
  induction l as [|a l IH]; simpl.
  - rewrite Nat.sub_0_r. induction g as [|c g IHg]; simpl; [reflexivity | now rewrite IHg].
  - exact IH.
Qed.

Lemma search_found (m : Re.matcher) (s g : string) :
  Re.search m s = Some g -> exists pre u r, s = (pre ++ u)%string /\ m u = Some (g, r).
Proof.
  induction s as [|c s IH]; rewrite search_eq.
  - destruct (m EmptyString) as [[g' r]|] eqn:E; [|discriminate].
    intros [= <-]. exists EmptyString, EmptyString, r. auto.
  - destruct (m (String c s)) as [[g' r]|] eqn:E.
    + intros [= <-]. exists EmptyString, (String c s), r. auto.
    + intros H. destruct (IH H) as (pre & u & r & -> & Hm).
      exists (String c pre), u, r. auto.
Qed.

(** A match of [result_id=(\d+)] is the literal followed by digits. *)
Lemma result_id_match_shape (href g : string) :
  Re.search result_id_pattern href = Some g ->
  exists ds, g = ("result_id=" ++ ds)%string
             /\ Str.str_all Str.is_digit ds = true /\ ds <> EmptyString.
Proof.
  intros H. destruct (search_found _ _ _ H) as (pre & u & r & _ & Hm).
  unfold result_id_pattern in Hm.
  destruct (lit_shape _ _ _ _ _ Hm) as (ds & -> & Hk & _).
  destruct (plus_accept_shape _ _ _ _ Hk) as (Hd & Hne & _).
  exists ds. auto.
Qed.

Lemma digit_val_range c : Str.is_digit c = true -> 0 <= Str.digit_val c <= 9.
Proof.
  destruct c as [[|] [|] [|] [|] [|] [|] [|] [|]]; cbv; intuition congruence.
Qed.

Lemma digits_val_from_nonneg (s : string) (a : Z) :
  Str.str_all Str.is_digit s = true -> 0 <= a -> 0 <= Str.digits_val_from a s.
Proof.
  revert a. induction s as [|c s IH]; intros a Hs Ha; simpl in *; [assumption|].
  apply andb_true_iff in Hs as [Hc Hs]. apply IH; [assumption|].
  pose proof (digit_val_range c Hc). lia.
Qed.

Lemma link_id_shape (a : node) (x : Z) :
  link_id a = Some x ->
  exists ds, Str.str_all Str.is_digit ds = true /\ ds <> EmptyString
             /\ x = Str.digits_val ds /\ 0 <= x.
Proof.
  unfold link_id. destruct (Re.search result_id_pattern _) as [g|] eqn:E; [|discriminate].
  intros [= <-]. destruct (result_id_match_shape _ _ E) as (ds & -> & Hd & Hne).
  exists ds.
  assert (Hs : String.substring 10 (String.length ("result_id=" ++ ds) - 10) ("result_id=" ++ ds) = ds)
    by exact (substring_app_l "result_id=" ds).
  rewrite Hs. repeat split; auto. apply digits_val_from_nonneg; [assumption | lia].
Qed.

End PatternShape.

(* ================================================================= *)
(** ** The controller on a site with rows at 5, 6 and 9 *)

Section Controller.

Variable net : nat -> string -> response.
Variable tourn_id : string.

Local Abbreviation url := (result_url tourn_id).

Lemma ids_from_app (r : Z) (a b : nat) :
  ids_from r (a + b) = ids_from r a ++ ids_from (r + Z.of_nat a) b.
Proof.
  revert r. induction a as [|a IH]; intros r.
  - simpl. now rewrite Z.add_0_r.
  - cbn [ids_from Nat.add app]. rewrite IH.
    replace (r + Z.of_nat (S a)) with (r + 1 + Z.of_nat a) by lia. reflexivity.
Qed.

Lemma ids_from_last (r : Z) (n : nat) (d : Z) :
  last (ids_from r (S n)) d = r + Z.of_nat n.
Proof.
  revert r. induction n as [|n IH]; intros r.
  - simpl. lia.
  - change (ids_from r (S (S n))) with (r :: ids_from (r + 1) (S n)).
    change (last (r :: ids_from (r + 1) (S n)) d) with (last (ids_from (r + 1) (S n)) d).
    rewrite IH. lia.
Qed.

(** The pipeline after discovery and seeking: the scanning loop from the
    chosen start, and the return of the rows it gathered. *)
Lemma scrape_after_seeking (fuel : nat) (limit : Z) (log log1 log2 : list string)
      (cands : list Z) (found : option Z) :
  extract_result_ids_from_index net tourn_id log = (Val cands, log1) ->
  cands <> [] ->
  find_true_starting_result_id net tourn_id cands log1 = (Val found, log2) ->
  scrape_tfa_tournament net fuel tourn_id limit log
  = match scan_loop net fuel tourn_id limit
            (mkScan (match found with Some r => r | None => list_min cands end) 0 []) log2 with
    | (Val st, l) => (Val (all_rows st), l)
    | (Raise e, l) => (Raise e, l)
    | (OutOfFuel, l) => (OutOfFuel, l)
    end.
Proof.
  intros Hx Hne Hs. unfold scrape_tfa_tournament, bind. rewrite Hx.
  destruct cands as [|c cands]; [congruence|]. rewrite Hs.
  destruct (scan_loop net fuel tourn_id limit _ log2) as [[st| |] l]; reflexivity.
Qed.

Lemma seek_loop_found_in (rids : list Z) (log : list string) (x : Z) log' :
  seek_loop net tourn_id rids log = (Val (Some x), log') -> In x rids.
Proof.
  revert log. induction rids as [|r rids IH]; intros log; simpl; [discriminate|].
  unfold bind. rewrite page_has_tfa_points_eq.
  destruct (page_result _) as [[rows ev]| |]; try discriminate.
  destruct rows; simpl.
  - intros H. right. eapply IH; eauto.
  - intros [= <- _]. now left.
Qed.

Lemma fold_min_in (l : list Z) (x : Z) : In (fold_left Z.min l x) (x :: l).
Proof.
  revert x. induction l as [|y l IH]; intros x; simpl; [now left|].
  destruct (IH (Z.min x y)) as [H | H]; [|now right; right].
  rewrite <- H. destruct (Z.min_spec x y) as [[_ ->] | [_ ->]]; [now left | now right; left].
Qed.

Lemma list_min_in (l : list Z) : l <> [] -> In (list_min l) l.
Proof. destruct l as [|x l]; [congruence|]. intros _. apply fold_min_in. Qed.

Lemma scan_run_5_6_9 (script : Z -> list dict) (start : Z) (log : list string) (fuel : nat) :
  0 <= start <= 5 ->
  (forall n i, start <= i <= 9 + 12 ->
     exists ev, page_result (net n (url i)) = Val (script i, ev)) ->
  script 5 <> [] -> script 6 <> [] -> script 9 <> [] ->
  (forall i, start <= i <= 9 + 12 -> i <> 5 -> i <> 6 -> i <> 9 -> script i = []) ->
  (Z.to_nat (9 + 12 + 1 - start) <= fuel)%nat ->
  scan_loop net fuel tourn_id 12 (mkScan start 0 []) log
  = (Val (mkScan (9 + 12 + 1) 12 (script 5 ++ script 6 ++ script 9)),
     log ++ map url (ids_from start (Z.to_nat (9 + 12 + 1 - start)))).
Proof.
  intros Hstart Hp H5 H6 H9 Hother Hfuel.
  set (m := Z.to_nat (5 - start)).
  replace (Z.to_nat (9 + 12 + 1 - start)) with (m + 17)%nat in * by (subst m; lia).
  replace fuel with (m + S (S (2 + S (12 + (fuel - (m + 17))))))%nat by lia.
  rewrite (scan_empty_run net tourn_id m _ 12 (mkScan start 0 []) log).
  2:{ intros k Hk. cbn [rid].
      destruct (Hp (length log + k)%nat (start + Z.of_nat k) ltac:(subst m; lia)) as [ev Hev].
      exists ev. rewrite Hev. now rewrite Hother by (subst m; lia). }
  2:{ cbn [empty_streak]. subst m. lia. }
  cbn [rid empty_streak all_rows].
  replace (start + Z.of_nat m) with 5 by (subst m; lia).
  set (log0 := log ++ map url (ids_from start m)).
  destruct (Hp (length log0) 5 ltac:(lia)) as [ev5 Hev5].
  rewrite (scan_turn net tourn_id _ 12 (mkScan 5 (0 + Z.of_nat m) []) log0 (script 5) ev5);
    [|cbn [empty_streak]; subst m; lia | exact Hev5].
  rewrite scan_next_rows by assumption. cbn [rid empty_streak all_rows app].
  change (5 + 1) with 6.
  set (log1 := log0 ++ [url 5]).
  destruct (Hp (length log1) 6 ltac:(lia)) as [ev6 Hev6].
  rewrite (scan_turn net tourn_id _ 12 (mkScan 6 0 (script 5)) log1 (script 6) ev6);
    [|simpl; lia | exact Hev6].
  rewrite scan_next_rows by assumption. cbn [rid empty_streak all_rows].
  change (6 + 1) with 7.
  set (log2 := log1 ++ [url 6]).
  rewrite (scan_empty_run net tourn_id 2 _ 12 (mkScan 7 0 (script 5 ++ script 6)) log2).
  2:{ intros k Hk. cbn [rid].
      destruct (Hp (length log2 + k)%nat (7 + Z.of_nat k) ltac:(lia)) as [ev Hev].
      exists ev. rewrite Hev. now rewrite Hother by lia. }
  2:{ simpl. lia. }
  cbn [rid empty_streak all_rows].
  change (7 + Z.of_nat 2) with 9. change (0 + Z.of_nat 2) with 2.
  set (log3 := log2 ++ map url (ids_from 7 2)).
  destruct (Hp (length log3) 9 ltac:(lia)) as [ev9 Hev9].
  rewrite (scan_turn net tourn_id _ 12 (mkScan 9 2 (script 5 ++ script 6)) log3 (script 9) ev9);
    [|simpl; lia | exact Hev9].
  rewrite scan_next_rows by assumption. cbn [rid empty_streak all_rows].
  change (9 + 1) with 10.
  set (log4 := log3 ++ [url 9]).
  rewrite (scan_empty_run net tourn_id 12 _ 12
             (mkScan 10 0 ((script 5 ++ script 6) ++ script 9)) log4).
  2:{ intros k Hk. cbn [rid].
      destruct (Hp (length log4 + k)%nat (10 + Z.of_nat k) ltac:(lia)) as [ev Hev].
      exists ev. rewrite Hev. now rewrite Hother by lia. }
  2:{ simpl. lia. }
  cbn [rid empty_streak all_rows].
  change (10 + Z.of_nat 12) with (9 + 12 + 1). change (0 + Z.of_nat 12) with 12.
  rewrite scan_stops by (simpl; lia).
  rewrite ids_from_app. replace (start + Z.of_nat m) with 5 by (subst m; lia).
  subst log4 log3 log2 log1 log0. rewrite map_app. simpl.
  rewrite <- !app_assoc. reflexivity.
Qed.

Lemma extract_result_ids_value (log : list string) (ids : list Z) log' :
  extract_result_ids_from_index net tourn_id log = (Val ids, log') ->
  exists status soup,
    net (length log) (index_url tourn_id) = Reply status soup
    /\ (400 <=? status) && (status <? 600) = false
    /\ ids = sorted (fold_left add_link_id (select_result_links soup) []).
Proof.
  unfold extract_result_ids_from_index, get_soup, bind, session_get, raise_for_status.
  destruct (net (length log) (index_url tourn_id)) as [| |status soup]; try discriminate.
  simpl. destruct ((400 <=? status) && (status <? 600)) eqn:E; simpl; [discriminate|].
  intros [= <- _]. exists status, soup. auto.
Qed.

Lemma extract_result_ids_nonneg (log : list string) (ids : list Z) log' (x : Z) :
  extract_result_ids_from_index net tourn_id log = (Val ids, log') ->
  In x ids -> 0 <= x.
Proof.
  intros H Hx. apply extract_result_ids_value in H as (status & soup & _ & _ & ->).
  apply sorted_in, fold_add_in in Hx. destruct Hx as [[] | (a & _ & Ha)].
  destruct (link_id_shape a x Ha) as (_ & _ & _ & _ & H0). exact H0.
Qed.

(** The identifier the scan starts from is one of the candidates. *)
Lemma start_id_is_candidate (cands : list Z) (log : list string) (found : option Z) log' :
  cands <> [] ->
  find_true_starting_result_id net tourn_id cands log = (Val found, log') ->
  In (match found with Some r => r | None => list_min cands end) cands.
Proof.
  intros Hne Hs. destruct found as [r|].
  - unfold find_true_starting_result_id in Hs.
    apply seek_loop_found_in in Hs. exact (proj1 (sorted_in _ _) Hs).
  - now apply list_min_in.
Qed.

End Controller.

(** C5: on a site where the probes of 5, 6 and 9 return rows and those
    of every other identifier from the chosen starting identifier up to
    9+12 return none, [scrape_tfa_tournament] with the threshold 12,
    whatever candidates the index gave and whether the start was found
    by seeking or is the least candidate, scans from the start, stops
    after the probe of 21 = 9+12, twelve empty probes after 9, and
    returns the rows of 5, then 6, then 9.  In general the controller
    returns the rows of its scanning loop; the loop stops, without a
    further probe, as soon as the streak is not below the limit; a
    probe with rows resets the streak to zero, a probe without rows
    makes it one longer. *)
Theorem controller_stops_twelve_after_last_rows
        (net : nat -> string -> response) (tourn_id : string)
        (script : Z -> list dict) :
  (forall (log log1 log2 : list string) (cands : list Z) (found : option Z) (start : Z),
      extract_result_ids_from_index net tourn_id log = (Val cands, log1) ->
      cands <> [] ->
      find_true_starting_result_id net tourn_id cands log1 = (Val found, log2) ->
      start = match found with Some r => r | None => list_min cands end ->
      start <= 5 ->
      (forall (l : list string) (i : Z), start <= i <= 9 + 12 ->
         exists ev, page_has_tfa_points net tourn_id i l
                    = (Val (script i, ev), l ++ [result_url tourn_id i])) ->
      script 5 <> [] -> script 6 <> [] -> script 9 <> [] ->
      (forall i, start <= i <= 9 + 12 -> i <> 5 -> i <> 6 -> i <> 9 -> script i = []) ->
      forall fuel : nat, (Z.to_nat (9 + 12 + 1 - start) <= fuel)%nat ->
        exists probes,
          scrape_tfa_tournament net fuel tourn_id 12 log
          = (Val (script 5 ++ script 6 ++ script 9),
             log2 ++ map (result_url tourn_id) probes)
          /\ probes = ids_from start (Z.to_nat (9 + 12 + 1 - start))
          /\ last probes 0 = 9 + 12)
  /\ (forall (fuel : nat) (limit : Z) (log log1 log2 : list string)
             (cands : list Z) (found : option Z),
        extract_result_ids_from_index net tourn_id log = (Val cands, log1) ->
        cands <> [] ->
        find_true_starting_result_id net tourn_id cands log1 = (Val found, log2) ->
        scrape_tfa_tournament net fuel tourn_id limit log
        = match scan_loop net fuel tourn_id limit
                  (mkScan (match found with Some r => r | None => list_min cands end) 0 [])
                  log2 with
          | (Val st, l) => (Val (all_rows st), l)
          | (Raise e, l) => (Raise e, l)
          | (OutOfFuel, l) => (OutOfFuel, l)
          end)
  /\ (forall fuel limit st log,
        limit <= empty_streak st ->
        scan_loop net fuel tourn_id limit st log = (Val st, log))
  /\ (forall fuel limit st log rows ev log',
        empty_streak st < limit ->
        page_has_tfa_points net tourn_id (rid st) log = (Val (rows, ev), log') ->
        scan_loop net (S fuel) tourn_id limit st log
        = scan_loop net fuel tourn_id limit
            (mkScan (rid st + 1)
                    (match rows with [] => empty_streak st + 1 | _ :: _ => 0 end)
                    (all_rows st ++ rows))
            log').
Proof.
  split; [|split; [|split]].
  - intros log log1 log2 cands found start Hx Hne Hs -> Hle Hscript H5 H6 H9 Hother fuel Hfuel.
    set (start := match found with Some r => r | None => list_min cands end) in *.
    assert (H0 : 0 <= start).
    { eapply extract_result_ids_nonneg; [exact Hx|].
      eapply start_id_is_candidate; eauto. }
    assert (Hp : forall n i, start <= i <= 9 + 12 ->
                 exists ev, page_result (net n (result_url tourn_id i)) = Val (script i, ev)).
    { intros n i Hi. destruct (Hscript (repeat EmptyString n) i Hi) as [ev Hev].
      rewrite page_has_tfa_points_eq, repeat_length in Hev.
      exists ev. now injection Hev. }
    exists (ids_from start (Z.to_nat (9 + 12 + 1 - start))).
    split; [|split; [reflexivity|]].
    + rewrite (scrape_after_seeking net tourn_id fuel 12 log log1 log2 cands found Hx Hne Hs).
      fold start.
      rewrite (scan_run_5_6_9 net tourn_id script start log2 fuel); auto.
    + replace (Z.to_nat (9 + 12 + 1 - start)) with (S (Z.to_nat (9 + 12 - start))) by lia.
      rewrite ids_from_last. lia.
  - intros. now apply scrape_after_seeking with (log1 := log1).
  - intros. now apply scan_stops.
  - intros fuel limit st log rows ev log' Hlt Hp.
    rewrite page_has_tfa_points_eq in Hp. injection Hp as Hp <-.
    rewrite (scan_turn net tourn_id fuel limit st log rows ev Hlt Hp).
    unfold scan_next. destruct rows; [now rewrite app_nil_r | reflexivity].
Qed.

Lemma controller_stops_twelve_after_last_rows_witness :
  (exists probes,
      scrape_tfa_tournament Demo.net 17 "36095" 12 []
      = (Val (Demo.scraped), [index_url "36095"; result_url "36095" 5]
                             ++ map (result_url "36095") probes)
      /\ probes = ids_from 5 (Z.to_nat (9 + 12 + 1 - 5))
      /\ last probes 0 = 9 + 12)
  /\ (exists probes,
        scrape_tfa_tournament Demo.net_low_index 19 "36095" 12 []
        = (Val (Demo.scraped), [index_url "36095"; result_url "36095" 3]
                               ++ map (result_url "36095") probes)
        /\ probes = ids_from 3 (Z.to_nat (9 + 12 + 1 - 3))
        /\ last probes 0 = 9 + 12).
Proof.
  split.
  - destruct (controller_stops_twelve_after_last_rows Demo.net "36095"
                (fun i => rows_of (page_result (Demo.net 0 (result_url "36095" i)))))
      as [H _].
    apply (H [] [index_url "36095"] [index_url "36095"; result_url "36095" 5]
             [5; 6; 9] (Some 5) 5).
    + vm_compute. reflexivity.
    + discriminate.
    + vm_compute. reflexivity.
    + reflexivity.
    + lia.
    + intros l i Hi. rewrite page_has_tfa_points_eq.
      assert (Hcases : i = 5 \/ i = 6 \/ i = 7 \/ i = 8 \/ i = 9 \/ i = 10 \/ i = 11
                       \/ i = 12 \/ i = 13 \/ i = 14 \/ i = 15 \/ i = 16 \/ i = 17
                       \/ i = 18 \/ i = 19 \/ i = 20 \/ i = 21) by lia.
      repeat (destruct Hcases as [-> | Hcases]); try subst i;
        eexists; (f_equal; vm_compute; reflexivity).
    + vm_compute. discriminate.
    + vm_compute. discriminate.
    + vm_compute. discriminate.
    + intros i Hi Hn5 Hn6 Hn9.
      assert (Hcases : i = 7 \/ i = 8 \/ i = 10 \/ i = 11
                       \/ i = 12 \/ i = 13 \/ i = 14 \/ i = 15 \/ i = 16 \/ i = 17
                       \/ i = 18 \/ i = 19 \/ i = 20 \/ i = 21) by lia.
      repeat (destruct Hcases as [-> | Hcases]); try subst i; vm_compute; reflexivity.
    + vm_compute. lia.
  - destruct (controller_stops_twelve_after_last_rows Demo.net_low_index "36095"
                (fun i => rows_of (page_result (Demo.net 0 (result_url "36095" i)))))
      as [H _].
    apply (H [] [index_url "36095"] [index_url "36095"; result_url "36095" 3]
             [3] None 3).
    + vm_compute. reflexivity.
    + discriminate.
    + vm_compute. reflexivity.
    + reflexivity.
    + lia.
    + intros l i Hi. rewrite page_has_tfa_points_eq.
      assert (Hcases : i = 3 \/ i = 4 \/ i = 5 \/ i = 6 \/ i = 7 \/ i = 8 \/ i = 9
                       \/ i = 10 \/ i = 11
                       \/ i = 12 \/ i = 13 \/ i = 14 \/ i = 15 \/ i = 16 \/ i = 17
                       \/ i = 18 \/ i = 19 \/ i = 20 \/ i = 21) by lia.
      repeat (destruct Hcases as [-> | Hcases]); try subst i;
        eexists; (f_equal; vm_compute; reflexivity).
    + vm_compute. discriminate.
    + vm_compute. discriminate.
    + vm_compute. discriminate.
    + intros i Hi Hn5 Hn6 Hn9.
      assert (Hcases : i = 3 \/ i = 4 \/ i = 7 \/ i = 8 \/ i = 10 \/ i = 11
                       \/ i = 12 \/ i = 13 \/ i = 14 \/ i = 15 \/ i = 16 \/ i = 17
                       \/ i = 18 \/ i = 19 \/ i = 20 \/ i = 21) by lia.
      repeat (destruct Hcases as [-> | Hcases]); try subst i; vm_compute; reflexivity.
    + vm_compute. lia.
Defined.
